(** * Browser activity report: the recovery and correlation engine

    A shallow embedding of the parts of [browser_extractor.py],
    [advanced_recovery.py], [firefox_forensics.py] and [analyze_artifacts.py]
    that recover deleted history, convert timestamps, build the timeline and
    split it into sessions. *)

From Stdlib Require Import ZArith List String Ascii Bool Lia.
From Stdlib Require Import Sorting.Sorted Sorting.Permutation.
Import ListNotations.
Open Scope Z_scope.
Set Warnings "-register-all".

(** ** Python values: exceptions and results *)

Inductive exc :=
| OverflowError
| ValueError
| TypeError
| AttributeError
| UnicodeDecodeError
| JSONDecodeError
| LZ4BlockError
| StructError
| OSError
| SqliteError.

Inductive result (A : Type) :=
| Ok (a : A)
| Raise (e : exc).
Arguments Ok {A} a.
Arguments Raise {A} e.

Definition bind {A B} (m : result A) (k : A -> result B) : result B :=
  match m with Ok a => k a | Raise e => Raise e end.

Notation "x <- m ;; k" := (bind m (fun x => k))
  (at level 61, m at next level, right associativity).

(** ** Python's [datetime] and [timedelta]

    A naive [datetime] is the number of microseconds since
    0001-01-01 00:00:00, the proleptic Gregorian origin of Python's
    [toordinal]. *)
Module PyDatetime.

Definition US_PER_DAY : Z := 86400 * 1000000.

(** [_days_before_year], [_days_before_month] and [_ymd2ord] of CPython's
    [datetime.py]. *)
Definition is_leap (y : Z) : bool :=
  (Z.eqb (y mod 4) 0 && negb (Z.eqb (y mod 100) 0)) || Z.eqb (y mod 400) 0.

Definition days_before_year (y : Z) : Z :=
  let y' := y - 1 in y' * 365 + y' / 4 - y' / 100 + y' / 400.

Definition days_before_month (y m : Z) : Z :=
  nth (Z.to_nat (m - 1)) [0; 31; 59; 90; 120; 151; 181; 212; 243; 273; 304; 334] 0
  + (if (2 <? m) && is_leap y then 1 else 0).

Definition ymd2ord (y m d : Z) : Z :=
  days_before_year y + days_before_month y m + d.

(** [datetime(y, m, d)] *)
Definition datetime (y m d : Z) : Z := (ymd2ord y m d - 1) * US_PER_DAY.

(** [MAXORDINAL]: the ordinal of 9999-12-31. *)
Definition MAXORDINAL : Z := ymd2ord 9999 12 31.

(** [timedelta] keeps its day count within [999999999] in magnitude. *)
Definition MAX_DELTA_DAYS : Z := 999999999.

(** [timedelta(microseconds=us)]: the days are [us // US_PER_DAY]. *)
Definition timedelta_us (us : Z) : result Z :=
  if Z.abs (us / US_PER_DAY) >? MAX_DELTA_DAYS then Raise OverflowError
  else Ok us.

(** [timedelta(seconds=s)] for an integral number of seconds. *)
Definition timedelta_s (s : Z) : result Z :=
  if Z.abs (s / 86400) >? MAX_DELTA_DAYS then Raise OverflowError
  else Ok (s * 1000000).

(** [datetime + timedelta]: "date value out of range" outside years
    1..9999. *)
Definition add (dt delta : Z) : result Z :=
  let r := dt + delta in
  if (r <? 0) || (MAXORDINAL * US_PER_DAY <=? r) then Raise OverflowError
  else Ok r.

End PyDatetime.

(** ** Timestamp conversion ([BrowserExtractor] in [browser_extractor.py]) *)
Module Timestamps.
Import PyDatetime.

(** [chrome_timestamp_to_datetime]: microseconds since 1601-01-01. *)
Definition chrome_timestamp_to_datetime (timestamp : Z) : result (option Z) :=
  if timestamp =? 0 then Ok None
  else
    d <- timedelta_us timestamp ;;
    r <- add (datetime 1601 1 1) d ;;
    Ok (Some r).

(** [safari_timestamp_to_datetime]: seconds since 2001-01-01 (an integral
    number of seconds). *)
Definition safari_timestamp_to_datetime (timestamp : Z) : result (option Z) :=
  if timestamp =? 0 then Ok None
  else
    d <- timedelta_s timestamp ;;
    r <- add (datetime 2001 1 1) d ;;
    Ok (Some r).

(** [float(int)] raises [OverflowError] when the rounded value would not be
    finite, i.e. from [2^1024 - 2^970] on in magnitude. Below that the
    comparison with [max_timestamp] (an integer below [2^53]) gives the same
    answer on the rounded float as on the integer, since rounding is
    monotone and exact up to [2^53]. *)
Definition float_overflows (x : Z) : bool :=
  2 ^ 1024 - 2 ^ 970 <=? Z.abs x.

(** [(datetime(2100, 1, 1) - datetime(1970, 1, 1)).total_seconds() * 1000000] *)
Definition max_timestamp : Z := datetime 2100 1 1 - datetime 1970 1 1.

Section Firefox.
(** [datetime.fromtimestamp(timestamp / 1000000)] reads the local time zone
    of the platform; it is left abstract. *)
Variable fromtimestamp : Z -> result Z.

(** [firefox_timestamp_to_datetime]: microseconds since 1970-01-01;
    [None] stands for a [None] argument. *)
Definition firefox_timestamp_to_datetime (timestamp : option Z)
  : result (option Z) :=
  match timestamp with
  | None => Ok None
  | Some t =>
      if t =? 0 then Ok None
      else if float_overflows t then Raise OverflowError
      else if t >? max_timestamp then Ok None
      else match fromtimestamp t with
           | Ok r => Ok (Some r)
           | Raise ValueError | Raise TypeError | Raise OSError => Ok None
           | Raise e => Raise e
           end
  end.
End Firefox.

End Timestamps.

(** ** Byte-pattern carving ([AdvancedFirefoxRecovery] in
    [advanced_recovery.py]) *)
Module Carving.

Definition bz (b : Byte.byte) : Z := Z.of_N (Byte.to_N b).

Definition bytes (s : string) : list Byte.byte := list_byte_of_string s.

(** The class [[^\s\x00-\x1F\x7F-\xFF]] of a bytes pattern: [\s] is
    [[ \t\n\r\f\v]], so what remains is [0x21..0x7E]. *)
Definition url_char (b : Byte.byte) : bool := (33 <=? bz b) && (bz b <=? 126).

(** The greedy run of [url_char] bytes at the head of a buffer. *)
Fixpoint url_run (l : list Byte.byte) : list Byte.byte :=
  match l with
  | b :: t => if url_char b then b :: url_run t else []
  | [] => []
  end.

Fixpoint strip_prefix (p l : list Byte.byte) : option (list Byte.byte) :=
  match p, l with
  | [], _ => Some l
  | c :: p', b :: l' => if Byte.eqb c b then strip_prefix p' l' else None
  | _ :: _, [] => None
  end.

(** A match of [rb'https?://[^\s\x00-\x1F\x7F-\xFF]{3,}'] starting at the
    head of [l]: the optional [s] is tried first, then left out. *)
Definition match_scheme (scheme : string) (l : list Byte.byte)
  : option (list Byte.byte) :=
  match strip_prefix (bytes scheme) l with
  | Some r =>
      let run := url_run r in
      if (3 <=? List.length run)%nat then Some (app (bytes scheme) run) else None
  | None => None
  end.

Definition match_url_at (l : list Byte.byte) : option (list Byte.byte) :=
  match match_scheme "https://" l with
  | Some m => Some m
  | None => match_scheme "http://" l
  end.

(** [re.finditer(url_pattern, data)]: after a match the search resumes at
    its end, otherwise one byte further; [skip] counts the bytes of the last
    match still to pass over. *)
Fixpoint finditer_url_from (skip : nat) (l : list Byte.byte)
  : list (list Byte.byte) :=
  match l with
  | [] => []
  | _ :: t =>
      match skip with
      | S k => finditer_url_from k t
      | O =>
          match match_url_at l with
          | Some m => m :: finditer_url_from (pred (List.length m)) t
          | None => finditer_url_from O t
          end
      end
  end.

Definition finditer_url (l : list Byte.byte) : list (list Byte.byte) :=
  finditer_url_from O l.

(** [match.group(0).decode('utf-8', errors='ignore')]: every matched byte
    is ASCII, so the decoded string has the same characters. *)
Definition decode_match (m : list Byte.byte) : string := string_of_list_byte m.

(** [url.startswith(('about:', 'place:'))] *)
Definition internal_scheme (url : string) : bool :=
  prefix "about:" url || prefix "place:" url.

(** [if url and not url.startswith(('about:', 'place:'))] *)
Definition keep_url (url : string) : bool :=
  negb (String.eqb url "") && negb (internal_scheme url).

(** A recovered entry: the dicts [{'url', 'title', 'recovery_method'}].
    The titles are fixed labels or text carved near the URL; no claim
    reads them and they are not modelled. *)
Record rec := mkrec { r_url : string; r_method : string }.

(** The byte scan shared by [recover_from_wal] and [recover_from_journal]. *)
Definition scan_side_file (method : string) (data : list Byte.byte) : list rec :=
  flat_map (fun m => let url := decode_match m in
                     if keep_url url then [mkrec url method] else [])
           (finditer_url data).

(** A side file: [None] when it does not exist, [Raise] when reading it
    fails (the error is logged and the strategy returns no entry). *)
Definition side_file := option (result (list Byte.byte)).

Definition recover_side_file (method : string) (f : side_file) : list rec :=
  match f with
  | None => []
  | Some (Raise _) => []
  | Some (Ok data) => scan_side_file method data
  end.

(** [recover_from_wal] on [places.sqlite-wal] *)
Definition recover_from_wal (wal : side_file) : list rec :=
  recover_side_file "wal_recovery" wal.

(** [recover_from_journal] on [places.sqlite-journal] *)
Definition recover_from_journal (journal : side_file) : list rec :=
  recover_side_file "journal_recovery" journal.

(** [recover_from_database_free_space]: the scan of the scratch copy of
    [places.sqlite], keeping the first match of each URL ([seen_urls]). *)
Fixpoint free_space_scan (seen : list string) (ms : list (list Byte.byte))
  : list rec :=
  match ms with
  | [] => []
  | m :: ms' =>
      let url := decode_match m in
      if keep_url url && negb (existsb (String.eqb url) seen)
      then mkrec url "database_free_space" :: free_space_scan (url :: seen) ms'
      else free_space_scan seen ms'
  end.

(** [places]: [None] when [places.sqlite] does not exist; [Some (Raise e)]
    when creating the scratch file, [shutil.copy2] to it (both outside the
    [try]) or its removal in the [finally] clause raises [e]; otherwise
    the read of the copy, inside the [try], failing or giving its bytes. *)
Definition recover_from_database_free_space
  (places : option (result (result (list Byte.byte)))) : result (list rec) :=
  match places with
  | None => Ok []
  | Some (Raise e) => Raise e
  | Some (Ok (Raise _)) => Ok []
  | Some (Ok (Ok data)) => Ok (free_space_scan [] (finditer_url data))
  end.

(** [recover_from_cookies]: the hosts of
    [SELECT DISTINCT host FROM moz_cookies WHERE host IS NOT NULL] on the
    original [cookies.sqlite], or the error that ends the strategy. *)
Definition cookie_rec (host : string) : list rec :=
  if negb (String.eqb host "") && negb (prefix "." host) then
    if negb (prefix "localhost" host || prefix "127.0.0.1" host)
    then [mkrec ("https://" ++ host)%string "cookie_analysis"]
    else []
  else [].

Definition recover_from_cookies (hosts : option (result (list string)))
  : list rec :=
  match hosts with
  | Some (Ok hs) => flat_map cookie_rec hs
  | _ => []
  end.

(** The [# Remove duplicates] loop of [recover_all]: the first entry of
    each URL is kept, in discovery order. *)
Fixpoint dedup_from (seen : list string) (l : list rec) : list rec :=
  match l with
  | [] => []
  | r :: l' =>
      if existsb (String.eqb (r_url r)) seen then dedup_from seen l'
      else r :: dedup_from (r_url r :: seen) l'
  end.

Definition remove_duplicates (all_recovered : list rec) : list rec :=
  dedup_from [] all_recovered.

(** [recover_all] once the five strategies have run: their outputs are
    concatenated in the order WAL, journal, session files, free space,
    cookies, then deduplicated. *)
Definition combine_recovered (wal journal session free cookie : list rec)
  : list rec :=
  remove_duplicates (wal ++ journal ++ session ++ free ++ cookie).

End Carving.

(** ** Session-snapshot containers *)
Module Session.
Import Carving.

(** Values produced by [json.loads]. Objects list the keys of the loaded
    dict once each (for a repeated key [json.loads] keeps the last value);
    numbers are integers. *)
Inductive json :=
| JNull
| JBool (b : bool)
| JNum (z : Z)
| JStr (s : string)
| JArr (l : list json)
| JObj (kvs : list (string * json)).

(** Python truth value of a loaded JSON value. *)
Definition py_truthy (v : json) : bool :=
  match v with
  | JNull => false
  | JBool b => b
  | JNum z => negb (z =? 0)
  | JStr s => negb (String.eqb s "")
  | JArr l => match l with [] => false | _ => true end
  | JObj kvs => match kvs with [] => false | _ => true end
  end.

Fixpoint assoc (k : string) (kvs : list (string * json)) : option json :=
  match kvs with
  | [] => None
  | (k', v) :: kvs' => if String.eqb k k' then Some v else assoc k kvs'
  end.

(** [o.get(k, d)]: only a dict has [get]. *)
Definition py_get (o : json) (k : string) (d : json) : result json :=
  match o with
  | JObj kvs => Ok (match assoc k kvs with Some v => v | None => d end)
  | _ => Raise AttributeError
  end.

(** [for x in v]: a list gives its items, a dict its keys, a string its
    characters; other values are not iterable. *)
Definition py_iter (v : json) : result (list json) :=
  match v with
  | JArr l => Ok l
  | JObj kvs => Ok (map (fun kv => JStr (fst kv)) kvs)
  | JStr s => Ok (map (fun c => JStr (String c EmptyString)) (list_ascii_of_string s))
  | _ => Raise TypeError
  end.

(** A [for] loop over [l] whose body updates [s] and may raise: the
    updates made before an exception are kept. *)
Fixpoint for_each {S X : Type} (body : S -> X -> S * option exc) (s : S)
  (l : list X) : S * option exc :=
  match l with
  | [] => (s, None)
  | x :: l' =>
      let (s', e) := body s x in
      match e with
      | Some _ => (s', e)
      | None => for_each body s' l'
      end
  end.

(** The nested loops shared by every session parser:
    [for window in session_data.get('windows', [])],
    [for tab in window.get('tabs', [])],
    [for entry in tab.get('entries', [])]. *)
Definition walk_entries {S : Type} (body : S -> json -> S * option exc)
  (s : S) (session_data : json) : S * option exc :=
  match (ws <- py_get session_data "windows" (JArr []) ;; py_iter ws) with
  | Raise e => (s, Some e)
  | Ok windows =>
      for_each (fun s window =>
        match (ts <- py_get window "tabs" (JArr []) ;; py_iter ts) with
        | Raise e => (s, Some e)
        | Ok tabs =>
            for_each (fun s tab =>
              match (es <- py_get tab "entries" (JArr []) ;; py_iter es) with
              | Raise e => (s, Some e)
              | Ok entries => for_each body s entries
              end) s tabs
        end) s windows
  end.

(** [b'mozLz40\0'] *)
Definition MOZLZ4_MAGIC : list Byte.byte := bytes "mozLz40" ++ [Byte.x00].

(** [struct.unpack('<I', b)[0]]: exactly four bytes, little-endian. *)
Definition unpack_le32 (b : list Byte.byte) : result Z :=
  match b with
  | [b0; b1; b2; b3] =>
      Ok (bz b0 + 256 * bz b1 + 65536 * bz b2 + 16777216 * bz b3)
  | _ => Raise StructError
  end.

(** [bytes.decode('utf-8')] (strict): the code points, or
    [UnicodeDecodeError] on an ill-formed sequence (overlong forms,
    surrogates and values above [0x10FFFF] included). *)
Definition in_range (lo hi : Z) (b : Byte.byte) : bool := (lo <=? bz b) && (bz b <=? hi).
Definition cont (b : Byte.byte) : bool := in_range 128 191 b.

Fixpoint utf8_decode (l : list Byte.byte) : result (list Z) :=
  match l with
  | [] => Ok []
  | b0 :: r0 =>
      let c0 := bz b0 in
      if c0 <? 128 then
        cs <- utf8_decode r0 ;; Ok (c0 :: cs)
      else if in_range 194 223 b0 then
        match r0 with
        | b1 :: r1 =>
            if cont b1 then
              cs <- utf8_decode r1 ;; Ok ((c0 - 192) * 64 + (bz b1 - 128) :: cs)
            else Raise UnicodeDecodeError
        | [] => Raise UnicodeDecodeError
        end
      else if in_range 224 239 b0 then
        match r0 with
        | b1 :: b2 :: r2 =>
            let lo := if c0 =? 224 then 160 else 128 in
            let hi := if c0 =? 237 then 159 else 191 in
            if in_range lo hi b1 && cont b2 then
              cs <- utf8_decode r2 ;;
              Ok ((c0 - 224) * 4096 + (bz b1 - 128) * 64 + (bz b2 - 128) :: cs)
            else Raise UnicodeDecodeError
        | _ => Raise UnicodeDecodeError
        end
      else if in_range 240 244 b0 then
        match r0 with
        | b1 :: b2 :: b3 :: r3 =>
            let lo := if c0 =? 240 then 144 else 128 in
            let hi := if c0 =? 244 then 143 else 191 in
            if in_range lo hi b1 && cont b2 && cont b3 then
              cs <- utf8_decode r3 ;;
              Ok ((c0 - 240) * 262144 + (bz b1 - 128) * 4096
                  + (bz b2 - 128) * 64 + (bz b3 - 128) :: cs)
            else Raise UnicodeDecodeError
        | _ => Raise UnicodeDecodeError
        end
      else Raise UnicodeDecodeError
  end.

End Session.

(** ** The Firefox recovery pipeline *)
Module Pipeline.
Import Carving Session.

Definition bytes_eqb (a b : list Byte.byte) : bool :=
  if list_eq_dec Byte.byte_eq_dec a b then true else false.

Definition mem (u : string) (l : list string) : bool := existsb (String.eqb u) l.

(** An entry of [FirefoxForensics.get_all_deleted_history]: its [url],
    the values of its ['title'] and ['timestamp'] keys as [entry.get] reads
    them ([JNull] for a missing key or [None]; the titles of [recover_all]
    records, which no code modelled here reads, are left as [JNull]), and
    its [recovery_method] key, when it has one. *)
Record fitem := mkfitem {
  fi_url : string; fi_title : json; fi_timestamp : json; fi_method : option string }.

(** A row of [moz_places] read by [analyze_places_database]. *)
Record place_row := mkrow {
  pl_url : string;
  pl_title : option string;
  pl_visit_count : Z
}.

(** The five strategies of [recover_all], each named by the path whose
    [exists()] it checks first, outside its [try]. *)
Inductive strategy :=
| WalFile       (** [places.sqlite-wal] *)
| JournalFile   (** [places.sqlite-journal] *)
| SessionDir    (** [sessionstore-backups] *)
| PlacesDb      (** [places.sqlite] *)
| CookiesDb.    (** [cookies.sqlite] *)

(** Inputs of [AdvancedFirefoxRecovery.recover_all] for one profile. *)
Record ff_profile := mkprofile {
  (** the exception [Path.exists()] raises on the path a strategy checks
      ([PermissionError] when [stat] fails with [EACCES], up to Python
      3.12), if any; otherwise the other fields tell what it finds *)
  p_exists_error : strategy -> option exc;
  p_wal : side_file;
  p_journal : side_file;
  (** [sessionstore-backups]: [None] when the directory is absent, else
      the [*.jsonlz4] files then the [*.baklz4] files, with their names *)
  p_sessions : option (list (string * result (list Byte.byte)));
  p_places : option (result (result (list Byte.byte)));
  p_cookie_hosts : option (result (list string))
}.

(** Inputs of [FirefoxForensics.get_all_deleted_history]. *)
Record basic_inputs := mkbasic {
  (** [run_forensics_script]: [subprocess.run] may raise [OSError] *)
  b_script : result bool;
  (** [places.sqlite]: absent, the copy failing, the query failing, or the
      rows of [moz_places] *)
  b_places : option (result (result (list place_row)));
  (** [sessionstore-backups/*.jsonlz4] *)
  b_session_files : option (list (list Byte.byte));
  (** [dumpzilla_data['history']] *)
  b_dumpzilla : option (list fitem)
}.

(** Inputs of the Firefox branch of [BrowserExtractor.extract_all_browsers]. *)
Record ff_inputs := mkinputs {
  f_available : bool;            (** [FIREFOX_FORENSICS_AVAILABLE] *)
  f_ctor_ok : bool;              (** [AdvancedFirefoxRecovery(...)] returns *)
  f_forensics_ok : bool;         (** [FirefoxForensics(...)] returns *)
  f_profile : ff_profile;
  f_basic : basic_inputs;
  (** the URLs of the rows of the last-week query of the basic extraction
      of [extract_firefox_history], or the exception of its copy of
      [places.sqlite], which runs outside any [try] *)
  f_recent_history : result (list string);
  (** [recovery.jsonlz4], [recovery.baklz4], [previous.jsonlz4] *)
  f_backups : option (list (option (result (list Byte.byte))))
}.

Section Defs.
(** [lz4.block.decompress(data, uncompressed_size=n)] *)
Variable lz4_decompress : list Byte.byte -> Z -> result (list Byte.byte).
(** [json.loads] on bytes and on a string (its code points) *)
Variable json_loads_bytes : list Byte.byte -> result json.
Variable json_loads_str : list Z -> result json.
(** [self.firefox_timestamp_to_datetime(last_accessed * 1000 if
    last_accessed else 0)] in [extract_firefox_session_history] *)
Variable session_visit_time : json -> result (option Z).
(** [datetime.fromtimestamp(entry['timestamp'] / 1000)] in
    [extract_firefox_history] *)
Variable forensic_fromtimestamp : json -> result Z.

(** The header, size field and payload of a [mozLz4] container, decoded. *)
Definition load_mozlz4 (data : list Byte.byte) : result json :=
  size <- unpack_le32 (firstn 4 (skipn 8 data)) ;;
  jd <- lz4_decompress (skipn 12 data) size ;;
  json_loads_bytes jd.

(** *** [AdvancedFirefoxRecovery.recover_from_session_files] *)
Definition session_entry (fname : string) (acc : list rec) (entry : json)
  : list rec * option exc :=
  match (url <- py_get entry "url" (JStr "") ;;
         _ <- py_get entry "title" (JStr "") ;; Ok url) with
  | Raise e => (acc, Some e)
  | Ok url =>
      if py_truthy url then
        match url with
        | JStr u =>
            if internal_scheme u then (acc, None)
            else (acc ++ [mkrec u ("session_" ++ fname)%string], None)
        | _ => (acc, Some AttributeError)
        end
      else (acc, None)
  end.

Definition session_file_records (acc : list rec)
  (f : string * result (list Byte.byte)) : list rec :=
  match snd f with
  | Raise _ => acc
  | Ok data =>
      if bytes_eqb (firstn 8 data) MOZLZ4_MAGIC then
        match load_mozlz4 data with
        | Raise _ => acc
        | Ok session_data => fst (walk_entries (session_entry (fst f)) acc session_data)
        end
      else acc
  end.

Definition recover_from_session_files
  (dir : option (list (string * result (list Byte.byte)))) : list rec :=
  match dir with
  | None => []
  | Some files => fold_left session_file_records files []
  end.

(** *** [AdvancedFirefoxRecovery.recover_all] *)

(** A strategy whose [exists()] check raises propagates the exception;
    otherwise it runs. *)
Definition checked {A} (p : ff_profile) (s : strategy) (run : unit -> result A) : result A :=
  match p_exists_error p s with
  | Some e => Raise e
  | None => run tt
  end.

Definition recover_all (p : ff_profile) : result (list rec) :=
  wal <- checked p WalFile (fun _ => Ok (recover_from_wal (p_wal p))) ;;
  journal <- checked p JournalFile (fun _ => Ok (recover_from_journal (p_journal p))) ;;
  session <- checked p SessionDir (fun _ => Ok (recover_from_session_files (p_sessions p))) ;;
  free <- checked p PlacesDb (fun _ => recover_from_database_free_space (p_places p)) ;;
  cookie <- checked p CookiesDb (fun _ => Ok (recover_from_cookies (p_cookie_hosts p))) ;;
  Ok (combine_recovered wal journal session free cookie).

(** *** [FirefoxForensics.analyze_places_database] *)

Definition ascii_lower (c : ascii) : ascii :=
  let n := nat_of_ascii c in
  if (65 <=? n)%nat && (n <=? 90)%nat then ascii_of_nat (n + 32) else c.

(** SQLite's [s LIKE 'p%'] for a pattern [p] without wildcards: a prefix
    test that ignores the case of ASCII letters. *)
Definition like_prefix (p s : string) : bool :=
  prefix (string_of_list_ascii (map ascii_lower (list_ascii_of_string p)))
         (string_of_list_ascii (map ascii_lower (list_ascii_of_string s))).

(** [WHERE url NOT LIKE 'about:%' AND url NOT LIKE 'place:%'
    AND visit_count > 0]; the rows are taken in the order of the query. *)
Definition sql_where (r : place_row) : bool :=
  negb (like_prefix "about:" (pl_url r)) && negb (like_prefix "place:" (pl_url r))
  && (0 <? pl_visit_count r).

Definition has_nul (s : string) : bool :=
  existsb (fun c => Ascii.eqb c (ascii_of_nat 0)) (list_ascii_of_string s).

(** [any(x is not None and b'\x00' in str(x).encode() for x in (url, title))] *)
Definition partially_overwritten (r : place_row) : bool :=
  has_nul (pl_url r) || match pl_title r with Some t => has_nul t | None => false end.

(** The copy of [places.sqlite] runs outside the [try]; a [sqlite3.Error]
    makes the function return [None]. *)
Definition analyze_places_database
  (places : option (result (result (list place_row)))) : result (option (list fitem)) :=
  match places with
  | None => Ok None
  | Some (Raise e) => Raise e
  | Some (Ok (Raise _)) => Ok None
  | Some (Ok (Ok rows)) =>
      Ok (Some (map (fun r => mkfitem (pl_url r)
                                     (match pl_title r with Some t => JStr t | None => JNull end)
                                     JNull None)
                    (filter partially_overwritten (filter sql_where rows))))
  end.

(** *** [FirefoxForensics.parse_session_data] *)
Definition parse_entry (acc : list fitem) (entry : json) : list fitem * option exc :=
  match (url <- py_get entry "url" (JStr "") ;;
         title <- py_get entry "title" (JStr "") ;;
         last_accessed <- py_get entry "lastAccessed" (JNum 0) ;;
         Ok (url, title, last_accessed)) with
  | Raise e => (acc, Some e)
  | Ok (url, title, last_accessed) =>
      if py_truthy url then
        match url with
        | JStr u =>
            if internal_scheme u then (acc, None)
            else (acc ++ [mkfitem u title last_accessed None], None)
        | _ => (acc, Some AttributeError)
        end
      else (acc, None)
  end.

(** One file: a [mozLz4] container, or else the whole file read as UTF-8
    JSON. Only [JSONDecodeError] (and [subprocess.CalledProcessError],
    which nothing here raises) is caught. *)
Definition parse_session_file (acc : list fitem) (data : list Byte.byte)
  : result (list fitem) :=
  let loaded :=
    if bytes_eqb (firstn 8 data) MOZLZ4_MAGIC then load_mozlz4 data
    else (text <- utf8_decode data ;; json_loads_str text) in
  match loaded with
  | Raise JSONDecodeError => Ok acc
  | Raise e => Raise e
  | Ok session_data =>
      match walk_entries parse_entry acc session_data with
      | (acc', None) => Ok acc'
      | (acc', Some JSONDecodeError) => Ok acc'
      | (_, Some e) => Raise e
      end
  end.

Fixpoint parse_session_files (acc : list fitem) (files : list (list Byte.byte))
  : result (list fitem) :=
  match files with
  | [] => Ok acc
  | data :: files' =>
      acc' <- parse_session_file acc data ;; parse_session_files acc' files'
  end.

(** [session_dir] is [None] when [sessionstore-backups] does not exist. *)
Definition parse_session_data (session_dir : option (list (list Byte.byte)))
  : result (list fitem) :=
  match session_dir with
  | None => Ok []
  | Some files => parse_session_files [] files
  end.

(** *** [FirefoxForensics.get_all_deleted_history] *)
Definition get_all_deleted_history (b : basic_inputs) : result (list fitem) :=
  _ <- b_script b ;;
  places_analysis <- analyze_places_database (b_places b) ;;
  session_history <- parse_session_data (b_session_files b) ;;
  Ok (match places_analysis with Some l => l | None => [] end
      ++ session_history
      ++ match b_dumpzilla b with Some l => l | None => [] end).

(** *** [BrowserExtractor.extract_firefox_history]: the URLs of its records *)

(** [if entry.get('url') and entry.get('title')] *)
Definition titled (it : fitem) : bool :=
  negb (String.eqb (fi_url it) "") && py_truthy (fi_title it).

(** The loop over [session_history]: an entry with a truthy [timestamp]
    gets the [visit_time] [datetime.fromtimestamp(entry['timestamp'] / 1000)],
    whose exception ends the loop (it is caught by the [try] around). *)
Fixpoint forensic_session_urls (entries : list fitem) : list string :=
  match entries with
  | [] => []
  | it :: rest =>
      if titled it then
        match (if py_truthy (fi_timestamp it)
               then (_ <- forensic_fromtimestamp (fi_timestamp it) ;; Ok tt)
               else Ok tt) with
        | Raise _ => []
        | Ok _ => fi_url it :: forensic_session_urls rest
        end
      else forensic_session_urls rest
  end.

(** The [try] block that uses [FirefoxForensics]: the titled entries of
    [analyze_places_database] (when [places.sqlite] exists), then those of
    [parse_session_data]; an exception keeps the records appended before
    it. *)
Definition forensic_history_urls (i : ff_inputs) : list string :=
  if f_available i && f_forensics_ok i then
    match analyze_places_database (b_places (f_basic i)) with
    | Raise _ => []
    | Ok pa =>
        let places_urls :=
          match pa with Some l => map fi_url (filter titled l) | None => [] end in
        match parse_session_data (b_session_files (f_basic i)) with
        | Raise _ => places_urls
        | Ok sh => places_urls ++ forensic_session_urls sh
        end
    end
  else [].

(** When that gave no record, the basic extraction: [return []] without
    [places.sqlite], else the last-week query on a copy. *)
Definition extract_firefox_history (i : ff_inputs) : result (list string) :=
  match forensic_history_urls i with
  | [] =>
      match b_places (f_basic i) with
      | None => Ok []
      | Some _ => f_recent_history i
      end
  | urls => Ok urls
  end.

(** *** [BrowserExtractor.extract_firefox_session_history]

    The state is the URLs of the records appended to [deleted_history]
    and the set [current_urls]; the other fields of a record are not read
    by the callers studied here. *)
Definition backup_entry (st : list string * list string) (entry : json)
  : (list string * list string) * option exc :=
  let (deleted, current) := st in
  match (url <- py_get entry "url" (JStr "") ;;
         title <- py_get entry "title" (JStr "") ;;
         last_accessed <- py_get entry "lastAccessed" (JNum 0) ;;
         Ok (url, title, last_accessed)) with
  | Raise e => (st, Some e)
  | Ok (url, title, last_accessed) =>
      match url with
      | JArr _ | JObj _ => (st, Some TypeError)
      | JStr u =>
          if mem u current || String.eqb u "" || prefix "about:" u then (st, None)
          else
            let current' := u :: current in
            match session_visit_time last_accessed with
            | Raise e => ((deleted, current'), Some e)
            | Ok _ =>
                if py_truthy url && py_truthy title
                then ((deleted ++ [u], current'), None)
                else ((deleted, current'), None)
            end
      | _ => if py_truthy url then (st, Some AttributeError) else (st, None)
      end
  end.

(** Every exception of one backup file is caught and the next file is
    read; the records appended before it are kept. *)
Definition backup_file_records (st : list string * list string)
  (f : option (result (list Byte.byte))) : list string * list string :=
  match f with
  | Some (Ok data) =>
      if bytes_eqb (firstn 8 data) MOZLZ4_MAGIC then
        match load_mozlz4 data with
        | Raise _ => st
        | Ok session_data => fst (walk_entries backup_entry st session_data)
        end
      else st
  | _ => st
  end.

Definition extract_firefox_session_history
  (backups : option (list (option (result (list Byte.byte))))) : list string :=
  match backups with
  | None => []
  | Some fs => fst (fold_left backup_file_records fs ([], []))
  end.

(** *** The Firefox branch of [BrowserExtractor.extract_all_browsers] *)

(** [forensics_data]: [recover_all], or on any exception the basic
    forensics; an empty list stands for [None] (both are falsy). *)
Definition forensics_data (i : ff_inputs) : list fitem :=
  if f_available i then
    match (if f_ctor_ok i then recover_all (f_profile i) else Raise OSError) with
    | Ok l => map (fun r => mkfitem (r_url r) JNull JNull (Some (r_method r))) l
    | Raise _ =>
        if f_forensics_ok i then
          match get_all_deleted_history (f_basic i) with
          | Ok l => l
          | Raise _ => []
          end
        else []
    end
  else [].

Definition forensic_entry (current_urls : list string) (item : fitem) : list rec :=
  if negb (mem (fi_url item) current_urls) && negb (prefix "about:" (fi_url item))
  then [mkrec (fi_url item)
              (match fi_method item with Some m => m | None => "advanced_forensics" end)]
  else [].

Definition session_backup_entry (current_urls : list string) (u : string) : list rec :=
  if negb (mem u current_urls) && negb (prefix "about:" u)
  then [mkrec u "session_backup"] else [].

(** [all_data['deleted_history']] after the Firefox branch. An exception
    of [extract_firefox_history] ends the branch (it is caught in
    [extract_all_browsers]) before any record is appended. *)
Definition firefox_deleted_history (i : ff_inputs) : list rec :=
  let fd := forensics_data i in
  match extract_firefox_history i with
  | Raise _ => []
  | Ok live =>
      let deleted :=
        match fd with [] => [] | _ => flat_map (forensic_entry live) fd end in
      match fd with
      | [] =>
          let session_history := extract_firefox_session_history (f_backups i) in
          deleted ++ flat_map (session_backup_entry (live ++ map r_url deleted)) session_history
      | _ => deleted
      end
  end.

End Defs.
End Pipeline.

(** ** Timeline and sessions ([BrowserArtifactAnalyzer] in
    [analyze_artifacts.py]) *)
Module Analyze.

(** A timestamp field as read back from the CSV files (a string, [''] when
    empty, or no key at all), or a [datetime] object. *)
Inductive tsval :=
| TsMissing
| TsStr (s : string)
| TsDate (z : Z).

Definition ts_truthy (t : tsval) : bool :=
  match t with
  | TsMissing => false
  | TsStr s => negb (String.eqb s "")
  | TsDate _ => true
  end.

Record hist_item := mkhist {
  h_browser : string; h_url : string; h_visit_time : tsval }.
Record dl_item := mkdl {
  d_browser : string; d_url : string; d_start_time : tsval; d_end_time : tsval }.
(** [c_host] is [item.get('host_key', item.get('host', ''))]. *)
Record ck_item := mkck {
  c_browser : string; c_host : string; c_creation_utc : tsval;
  c_last_access_utc : tsval; c_lastAccessed : tsval }.

(** A timeline event: its timestamp, [type], [browser], and its [url] (or
    [host] for cookie events). *)
Record event := mkevent {
  ev_timestamp : tsval; ev_type : string; ev_browser : string; ev_subject : string }.

Definition history_events (item : hist_item) : list event :=
  if ts_truthy (h_visit_time item)
  then [mkevent (h_visit_time item) "history_visit" (h_browser item) (h_url item)]
  else [].

Definition download_events (item : dl_item) : list event :=
  (if ts_truthy (d_start_time item)
   then [mkevent (d_start_time item) "download_start" (d_browser item) (d_url item)]
   else [])
  ++ (if ts_truthy (d_end_time item)
      then [mkevent (d_end_time item) "download_complete" (d_browser item) (d_url item)]
      else []).

Definition cookie_events (item : ck_item) : list event :=
  (if ts_truthy (c_creation_utc item)
   then [mkevent (c_creation_utc item) "cookie_created" (c_browser item) (c_host item)]
   else [])
  ++ (let access_time :=
        if ts_truthy (c_last_access_utc item) then c_last_access_utc item
        else c_lastAccessed item in
      if ts_truthy access_time
      then [mkevent access_time "cookie_accessed" (c_browser item) (c_host item)]
      else []).

(** [list.sort(key=...)] is stable: an element goes after the elements
    already placed whose key is not greater. *)
Fixpoint insert_by {A} (key : A -> Z) (x : A) (l : list A) : list A :=
  match l with
  | [] => [x]
  | y :: l' => if key x <? key y then x :: y :: l' else y :: insert_by key x l'
  end.

Definition sort_by {A} (key : A -> Z) (l : list A) : list A :=
  fold_left (fun acc x => insert_by key x acc) l [].

(** [timedelta(minutes=30)] in microseconds *)
Definition session_timeout : Z := 30 * 60 * 1000000.

Record session := mksession {
  start_time : Z; end_time : Z; events : list event }.

Section Defs.
(** [datetime.fromisoformat]: [None] when it raises [ValueError]. *)
Variable fromisoformat : string -> option Z.

(** [sort_key] of [build_timeline]; [datetime.min] is [0]. *)
Definition sort_key (e : event) : Z :=
  match ev_timestamp e with
  | TsDate z => z
  | TsStr s =>
      if String.eqb s "" then 0
      else match fromisoformat s with Some z => z | None => 0 end
  | TsMissing => 0
  end.

Definition build_timeline (history : list hist_item) (downloads : list dl_item)
  (cookies : list ck_item) : list event :=
  sort_by sort_key
    (flat_map history_events history ++ flat_map download_events downloads
     ++ flat_map cookie_events cookies).

(** [ensure_datetime] of [generate_session_analysis] *)
Definition ensure_datetime (ts : tsval) : option Z :=
  match ts with
  | TsDate z => Some z
  | TsStr s => if String.eqb s "" then None else fromisoformat s
  | TsMissing => None
  end.

(** The loop of [generate_session_analysis]: [cur] is [current_session],
    [acc] the closed sessions. The [browsers], [domains] and
    [activity_types] sets are derived per event and are not modelled. *)
Fixpoint session_loop (cur : option session) (acc : list session)
  (evs : list event) : list session :=
  match evs with
  | [] => match cur with Some c => acc ++ [c] | None => acc end
  | e :: evs' =>
      match ensure_datetime (ev_timestamp e) with
      | None => session_loop cur acc evs'
      | Some t =>
          match cur with
          | Some c =>
              if t - end_time c >? session_timeout
              then session_loop (Some (mksession t t [e])) (acc ++ [c]) evs'
              else session_loop (Some (mksession (start_time c) t (events c ++ [e]))) acc evs'
          | None => session_loop (Some (mksession t t [e])) acc evs'
          end
      end
  end.

Definition generate_sessions (timeline_events : list event) : list session :=
  session_loop None [] timeline_events.

End Defs.
End Analyze.

(** ** File effects of the Safari extraction ([browser_extractor.py]) *)
Module SafariFiles.

(** The file system: the contents of each path, [None] when absent. *)
Definition fs := string -> option string.

Definition upd (f : fs) (p : string) (v : option string) : fs :=
  fun q => if String.eqb q p then v else f q.

(** The files SQLite creates, writes or deletes for a connection to the
    database [db]: the database, its WAL, its shared-memory index and its
    rollback journal. *)
Definition sqlite_files (db : string) : list string :=
  [db; (db ++ "-wal")%string; (db ++ "-shm")%string; (db ++ "-journal")%string].

(** The statements a connection runs. *)
Inductive sqlite_work :=
| CheckpointTruncate  (** [PRAGMA wal_checkpoint(TRUNCATE)] *)
| ReadHistory         (** the queries of [extract_safari_history] *)
| ReadTombstones.     (** the queries of [extract_safari_deleted_history] *)

Section Effects.
(** [sqlite3.connect(db)], the statements of the work and [conn.close()]:
    the files afterwards, whether the statements completed, returned a
    busy row after a partial checkpoint, or raised (the callers catch
    every such exception). *)
Variable sqlite_session : string -> sqlite_work -> fs -> fs.
(** [shutil.copy2(src, dst)]: the files afterwards, and whether it
    raised. *)
Variable copy2 : fs -> string -> string -> fs * bool.

(** [extract_safari_deleted_history]: [history_db.exists()], the
    checkpoint on the original database, the copy (an exception ends the
    function: [OSError] is caught and returns, any other propagates), the
    queries on the copy, and the [finally] that deletes it. *)
Definition extract_safari_deleted_history (f : fs) (safari_path output_dir : string) : fs :=
  let history_db := (safari_path ++ "/History.db")%string in
  match f history_db with
  | None => f
  | Some _ =>
      let f1 := sqlite_session history_db CheckpointTruncate f in
      let temp_db := (output_dir ++ "/safari_tombstones_temp.db")%string in
      let (f2, raised) := copy2 f1 history_db temp_db in
      if raised then f2
      else upd (sqlite_session temp_db ReadTombstones f2) temp_db None
  end.

(** [extract_safari_history]; [tables_ok] tells whether the queries on the
    copy get past the early [return []] of a missing table or column,
    after which the tombstones are read. *)
Definition extract_safari_history (tables_ok : bool) (f : fs)
  (safari_path output_dir : string) : fs :=
  let history_db := (safari_path ++ "/History.db")%string in
  match f history_db with
  | None => f
  | Some _ =>
      let f1 := sqlite_session history_db CheckpointTruncate f in
      let temp_db := (output_dir ++ "/safari_history_temp.db")%string in
      let (f2, raised) := copy2 f1 history_db temp_db in
      if raised then f2
      else
        let f3 := upd (sqlite_session temp_db ReadHistory f2) temp_db None in
        if tables_ok then extract_safari_deleted_history f3 safari_path output_dir
        else f3
  end.

End Effects.
End SafariFiles.

(** ** The binary cookies file of [extract_safari_cookies] *)
Module SafariCookies.
Import Carving.

(** A cookie read from [Cookies.binarycookies]: its four strings (the
    other fields are the constants [True] and [None]). *)
Record safari_cookie := mkcookie {
  host_key : string; name : string; path : string; value : string }.

(** [int.from_bytes(b, byteorder='big')] *)
Definition be_int (b : list Byte.byte) : Z := fold_left (fun acc x => acc * 256 + bz x) b 0.

(** [int.from_bytes(b, byteorder='little')] *)
Definition le_int (b : list Byte.byte) : Z := fold_right (fun x acc => bz x + 256 * acc) 0 b.

(** [data[a:b]] for [0 <= a <= b] *)
Definition slice (a b : nat) (data : list Byte.byte) : list Byte.byte :=
  firstn (b - a) (skipn a data).

(** The bytes from the head of [l] up to the first NUL. *)
Fixpoint take_nonnul (l : list Byte.byte) : list Byte.byte :=
  match l with
  | [] => []
  | b :: t => if Byte.eqb b Byte.x00 then [] else b :: take_nonnul t
  end.

Section Parse.
(** [bytes.decode('utf-8', errors='ignore')], left abstract. *)
Variable decode_ignore : list Byte.byte -> string.

(** [read_string]: the bytes from [offset] up to the next NUL or the end of
    the data, and the offset one past that NUL. *)
Definition read_string (data : list Byte.byte) (offset : nat) : string * nat :=
  let s := take_nonnul (skipn offset data) in
  (decode_ignore s, offset + List.length s + 1)%nat.

(** One cookie: the four fields in the order of the dict literal, then the
    12 bytes of flags and timestamps skipped. *)
Definition read_cookie (data : list Byte.byte) (offset : nat) : safari_cookie * nat :=
  let (h, o1) := read_string data offset in
  let (n, o2) := read_string data o1 in
  let (p, o3) := read_string data o2 in
  let (v, o4) := read_string data o3 in
  (mkcookie h n p v, o4 + 12)%nat.

(** [for _ in range(num_cookies)]: nothing in its body raises. *)
Fixpoint cookies_loop (data : list Byte.byte) (n : nat) (offset : nat)
  (acc : list safari_cookie) : list safari_cookie * nat :=
  match n with
  | O => (acc, offset)
  | S n' => let (c, o) := read_cookie data offset in cookies_loop data n' o (acc ++ [c])
  end.

(** [for page in range(num_pages)], with its [break] when fewer than four
    bytes are left for the page header. *)
Fixpoint pages_loop (data : list Byte.byte) (n : nat) (offset : nat)
  (acc : list safari_cookie) : list safari_cookie :=
  match n with
  | O => acc
  | S n' =>
      if (List.length data <? offset + 4)%nat then acc
      else
        let num_cookies := le_int (slice offset (offset + 4) data) in
        let (acc', o) := cookies_loop data (Z.to_nat num_cookies) (offset + 4) acc in
        pages_loop data n' o acc'
  end.

(** The [with open(binary_cookies, 'rb')] block on the bytes [data] of
    the file; [page_size] is read but not used. *)
Definition parse_binary_cookies (data : list Byte.byte) : list safari_cookie :=
  if (List.length data <? 4)%nat || negb (Pipeline.bytes_eqb (firstn 4 data) (bytes "cook"))
  then []
  else pages_loop data (Z.to_nat (be_int (slice 8 12 data))) 12 [].

End Parse.
End SafariCookies.

(** ** Pattern analysis ([BrowserAnalyzer] in [analyze_artifacts.py]) *)
Module Patterns.

(** A Python [str]: its code points. *)
Definition pystr := list Z.

(** A literal of the source, all of whose characters are ASCII. *)
Definition ustr (s : string) : pystr :=
  map (fun c => Z.of_nat (nat_of_ascii c)) (list_ascii_of_string s).

Definition pystr_eqb (a b : pystr) : bool :=
  if list_eq_dec Z.eq_dec a b then true else false.

Fixpoint startswith (p s : pystr) : bool :=
  match p, s with
  | [], _ => true
  | c :: p', d :: s' => (c =? d) && startswith p' s'
  | _ :: _, [] => false
  end.

(** [needle in haystack] on strings *)
Fixpoint contains (needle hay : pystr) : bool :=
  startswith needle hay || match hay with [] => false | _ :: t => contains needle t end.

(** [self.suspicious_domains], in the insertion order of the dict *)
Definition suspicious_domains : list (pystr * list pystr) := [
  (ustr "darkweb", [ustr ".onion"; ustr "darkweb"; ustr "tor"]);
  (ustr "malware", [ustr "malware"; ustr "virus"; ustr "trojan"; ustr "ransomware"]);
  (ustr "phishing", [ustr "login"; ustr "secure"; ustr "account"; ustr "verify"; ustr "banking"]);
  (ustr "adult", [ustr "porn"; ustr "sex"; ustr "adult"; ustr "xxx"]);
  (ustr "gambling", [ustr "casino"; ustr "betting"; ustr "poker"; ustr "lottery"])].

(** [self.suspicious_keywords] *)
Definition suspicious_keywords : list pystr := [
  ustr "password"; ustr "login"; ustr "admin"; ustr "root"; ustr "hack"; ustr "exploit";
  ustr "crack"; ustr "keygen"; ustr "warez"; ustr "torrent"; ustr "pirate"].

(** [category in ['darkweb', 'malware']] *)
Definition heavy_category (category : pystr) : bool :=
  existsb (pystr_eqb category) [ustr "darkweb"; ustr "malware"].

Section Risk.
(** [re.match(r'^\d{1,3}\.\d{1,3}\.\d{1,3}\.\d{1,3}', domain)]: in a
    [str] pattern [\d] is any Unicode decimal digit, so the test is left
    abstract; both functions below use the same pattern. *)
Variable ip_match : pystr -> bool.

(** [assess_domain_risk] *)
Definition assess_domain_risk (domain : pystr) : Z :=
  let risk_score :=
    fold_left (fun acc cp =>
      fold_left (fun acc pattern =>
        if contains pattern domain
        then acc + (if heavy_category (fst cp) then 2 else 1)
        else acc) (snd cp) acc) suspicious_domains 0 in
  let risk_score :=
    fold_left (fun acc keyword => if contains keyword domain then acc + 1 else acc)
      suspicious_keywords risk_score in
  let risk_score := if ip_match domain then risk_score + 1 else risk_score in
  if (50 <? List.length domain)%nat then risk_score + 1 else risk_score.

(** [get_risk_factors] *)
Definition get_risk_factors (domain : pystr) : list pystr :=
  flat_map (fun cp =>
    flat_map (fun pattern =>
      if contains pattern domain
      then [ustr "Contains '" ++ pattern ++ ustr "' (" ++ fst cp ++ ustr ")"]
      else []) (snd cp)) suspicious_domains
  ++ flat_map (fun keyword =>
       if contains keyword domain
       then [ustr "Contains suspicious keyword '" ++ keyword ++ ustr "'"]
       else []) suspicious_keywords
  ++ (if ip_match domain then [ustr "IP address instead of domain name"] else [])
  ++ (if (50 <? List.length domain)%nat then [ustr "Unusually long domain name"] else []).

End Risk.

(** The patterns of the [darkweb] and [malware] categories, which weigh 2. *)
Definition heavy_patterns : list pystr :=
  flat_map snd (filter (fun cp => heavy_category (fst cp)) suspicious_domains).

(** *** [analyze_download_patterns] *)

(** A value of a row of [csv.DictReader] after [load_csv_data]: a string,
    [None] (a short row), or a [datetime] (a column whose name holds
    [time]). *)
Inductive pyval := PNone | PStr (s : pystr) | PDate (z : Z).

(** A row: its columns and values, in the order of the header. *)
Definition row := list (pystr * pyval).

Fixpoint row_lookup (k : pystr) (r : row) : option pyval :=
  match r with
  | [] => None
  | (k', v) :: r' => if pystr_eqb k k' then Some v else row_lookup k r'
  end.

(** [item.get(k, d)] *)
Definition row_get (r : row) (k : pystr) (d : pyval) : pyval :=
  match row_lookup k r with Some v => v | None => d end.

(** [os.path.basename] (POSIX): the part after the last [/]. *)
Fixpoint take_until (c : Z) (l : pystr) : pystr :=
  match l with
  | [] => []
  | x :: t => if x =? c then [] else x :: take_until c t
  end.

Definition basename (p : pystr) : pystr := rev (take_until 47 (rev p)).

(** [s.split('.')] *)
Fixpoint split_dot (s : pystr) : list pystr :=
  match s with
  | [] => [[]]
  | c :: s' =>
      let parts := split_dot s' in
      if c =? 46 then [] :: parts
      else match parts with
           | p :: ps => (c :: p) :: ps
           | [] => [[c]]
           end
  end.

(** [defaultdict(int)] [d[k] += 1]: a new key goes last. *)
Fixpoint incr {K} (eqb : K -> K -> bool) (k : K) (d : list (K * Z)) : list (K * Z) :=
  match d with
  | [] => [(k, 1)]
  | (k', n) :: d' => if eqb k k' then (k', n + 1) :: d' else (k', n) :: incr eqb k d'
  end.

Definition any_in (exts : list pystr) (s : pystr) : bool :=
  existsb (fun ext => contains ext s) exts.

(** The category a download is counted in. *)
Definition categorize (target_path : pystr) : pystr :=
  if any_in [ustr ".exe"; ustr ".msi"; ustr ".dmg"; ustr ".pkg"] target_path
  then ustr "executables"
  else if any_in [ustr ".zip"; ustr ".rar"; ustr ".7z"; ustr ".tar.gz"] target_path
  then ustr "archives"
  else if any_in [ustr ".pdf"; ustr ".doc"; ustr ".docx"; ustr ".xls"; ustr ".xlsx"] target_path
  then ustr "documents"
  else if any_in [ustr ".jpg"; ustr ".png"; ustr ".gif"; ustr ".mp4"; ustr ".avi"] target_path
  then ustr "media"
  else ustr "other".

Definition download_categories : list pystr :=
  [ustr "executables"; ustr "archives"; ustr "documents"; ustr "media"; ustr "other"].

(** The risk score and factors of one download, from its lowered [url] and
    the [basename] of its lowered [target_path]. *)
Definition download_risk (url filename : pystr) : Z * list pystr :=
  let st :=
    fold_left (fun st cp =>
      fold_left (fun st pattern =>
        if contains pattern url
        then (fst st + 2, snd st ++ [ustr "Downloaded from " ++ fst cp ++ ustr " source"])
        else st) (snd cp) st) suspicious_domains (0, []) in
  let st :=
    fold_left (fun st keyword =>
      if contains keyword filename
      then (fst st + 1, snd st ++ [ustr "Filename contains '" ++ keyword ++ ustr "'"])
      else st) suspicious_keywords st in
  if (1 <? count_occ Z.eq_dec filename 46%Z)%nat then
    let parts := split_dot filename in
    if existsb (fun ext => existsb (pystr_eqb ext)
                             [ustr "exe"; ustr "scr"; ustr "pif"; ustr "com"]) (tl parts)
    then (fst st + 2, snd st ++ [ustr "Double extension with executable"])
    else st
  else st.

(** An entry of [suspicious_downloads]: the row it is built from (its
    [url], [target_path], [start_time], [end_time] and [browser] are read
    from it), the score and the factors. *)
Record sus_download := mksus {
  sd_item : row; sd_score : Z; sd_factors : list pystr }.

Section Downloads.
(** [str.lower()]: Unicode case mapping, left abstract. *)
Variable str_lower : pystr -> pystr.

Definition py_lower (v : pyval) : result pystr :=
  match v with
  | PStr s => Ok (str_lower s)
  | _ => Raise AttributeError
  end.

(** The lowered [url] and [target_path] of a row, which raise
    [AttributeError] on a non-string value. *)
Definition lowered_fields (item : row) : result (pystr * pystr) :=
  url <- py_lower (row_get item (ustr "url") (PStr [])) ;;
  target_path <- py_lower (row_get item (ustr "target_path") (PStr [])) ;;
  Ok (url, target_path).

Fixpoint download_loop (rows : list row) (stats : list (pystr * Z))
  (sus : list sus_download) : result (list (pystr * Z) * list sus_download) :=
  match rows with
  | [] => Ok (stats, sus)
  | item :: rows' =>
      f <- lowered_fields item ;;
      let (url, target_path) := f in
      let stats' := incr pystr_eqb (categorize target_path) stats in
      let (score, factors) := download_risk url (basename target_path) in
      let sus' := if 0 <? score then sus ++ [mksus item score factors] else sus in
      download_loop rows' stats' sus'
  end.

(** [analyze_download_patterns]: [download_stats] and [suspicious_downloads] *)
Definition analyze_download_patterns (download_data : list row)
  : result (list (pystr * Z) * list sus_download) :=
  download_loop download_data [] [].

(** The risk factors of a row, when its fields can be lowered. *)
Definition row_factors (item : row) : list pystr :=
  match lowered_fields item with
  | Ok (url, target_path) => snd (download_risk url (basename target_path))
  | Raise _ => []
  end.

End Downloads.

(** A value [.lower()] accepts: a string, or a missing key (the default
    [''] is used). *)
Definition lowerable (item : row) (k : pystr) : bool :=
  match row_lookup k item with
  | Some (PStr _) | None => true
  | _ => false
  end.

End Patterns.

(** ** Session statistics ([generate_session_analysis]) *)
Module SessionStats.
Import Analyze.

(** [datetime.hour] *)
Definition hour (dt : Z) : Z := (dt mod PyDatetime.US_PER_DAY) / 3600000000.

(** [total_sessions], [total_events] and [peak_activity_hours] of
    [session_stats]. *)
Definition session_counts (sessions : list session) : Z * Z * list (Z * Z) :=
  (Z.of_nat (List.length sessions),
   fold_left (fun acc s => acc + Z.of_nat (List.length (events s))) sessions 0,
   fold_left (fun acc s => Patterns.incr Z.eqb (hour (start_time s)) acc) sessions []).

End SessionStats.

(** * Specification-side definitions *)

(** Following the spec's confidence ranking (highest to lowest):
    orphaned-row > session-container > cookie-container > free-space, WAL
    and journal carving > unparsed summary stub, applied to the
    [recovery_method] tags of [advanced_recovery.py]. *)
Definition spec_confidence (method : string) : nat :=
  if prefix "session_" method then 3
  else if String.eqb method "cookie_analysis" then 2
  else if String.eqb method "wal_recovery" || String.eqb method "journal_recovery"
          || String.eqb method "database_free_space" then 1
  else 0.


Definition url_is (u : string) (r : Carving.rec) : bool := String.eqb (Carving.r_url r) u.

(** Two elements in non-decreasing order of [key]. *)
Definition key_le {A : Type} (key : A -> Z) (a b : A) : Prop := key a <= key b.

Section SessionDefs.
Import Analyze.
Variable fromisoformat : string -> option Z.

(** The events [generate_session_analysis] does not skip, and their time. *)
Definition stamped (e : event) : bool :=
  match ensure_datetime fromisoformat (ev_timestamp e) with
  | Some _ => true
  | None => false
  end.

Definition ev_time (e : event) : Z :=
  match ensure_datetime fromisoformat (ev_timestamp e) with
  | Some t => t
  | None => 0
  end.

(** Two consecutive events of one session are at most the timeout apart. *)
Definition gap_within (a b : event) : Prop := ev_time b - ev_time a <= session_timeout.

(** A session starts after its predecessor ends by more than the timeout. *)
Definition gap_between (s1 s2 : session) : Prop :=
  start_time s2 - end_time s1 > session_timeout.

(** A session starts at the time of its first event and ends at the time
    of its last one; all its events carry a time. *)
Definition session_wf (s : session) : Prop :=
  (exists e es, events s = e :: es /\ start_time s = ev_time e) /\
  (exists es e, events s = es ++ [e] /\ end_time s = ev_time e) /\
  Forall (fun e => stamped e = true) (events s) /\
  Sorted gap_within (events s).

Definition opt_list (cur : option session) : list session :=
  match cur with Some c => [c] | None => [] end.

(** The invariant of the loop of [generate_session_analysis]. *)
Definition loop_inv (cur : option session) (acc : list session) : Prop :=
  Forall session_wf (acc ++ opt_list cur) /\
  Sorted gap_between (acc ++ opt_list cur) /\
  (cur = None -> acc = []).

End SessionDefs.

(** A visit recorded at [minutes] past the origin, as a [datetime]. *)
Definition visit_at (minutes : Z) : Analyze.event :=
  Analyze.mkevent (Analyze.TsDate (minutes * 60 * 1000000)) "history_visit" "Firefox" "".

(** A Safari profile directory [/s] holding a database and a non-empty
    WAL, and nothing else. *)
Definition safari_profile : SafariFiles.fs :=
  fun p => if String.eqb p "/s/History.db" then Some "D"%string
           else if String.eqb p "/s/History.db-wal" then Some "W"%string
           else None.

(** A checkpoint that completes with no other connection open: the WAL
    frames are written into the database (modelled as appended to it) and
    [conn.close()] deletes the WAL and the shared-memory index. The
    queries on a copy leave the files as they were: the side files the
    connection creates are deleted again when it closes. *)
Definition demo_sqlite_session (db : string) (w : SafariFiles.sqlite_work)
  (f : SafariFiles.fs) : SafariFiles.fs :=
  match w with
  | SafariFiles.CheckpointTruncate =>
      match f db, f (db ++ "-wal")%string with
      | Some d, Some frames =>
          SafariFiles.upd (SafariFiles.upd (SafariFiles.upd f db (Some (d ++ frames)%string))
                             (db ++ "-wal")%string None) (db ++ "-shm")%string None
      | _, _ => f
      end
  | _ => f
  end.

(** A [shutil.copy2] that succeeds. *)
Definition demo_copy2 (f : SafariFiles.fs) (src dst : string) : SafariFiles.fs * bool :=
  (SafariFiles.upd f dst (f src), false).

(** The paths the Safari history extraction may write: the original
    [History.db] and its SQLite side files, and the two scratch copies in
    the output directory with their side files, or paths below them when
    [shutil.copy2] finds a directory there. *)
Definition safari_footprint (safari_path output_dir p : string) : bool :=
  let t1 := (output_dir ++ "/safari_history_temp.db")%string in
  let t2 := (output_dir ++ "/safari_tombstones_temp.db")%string in
  existsb (String.eqb p)
    (SafariFiles.sqlite_files (safari_path ++ "/History.db")%string
     ++ SafariFiles.sqlite_files t1 ++ SafariFiles.sqlite_files t2)
  || prefix (t1 ++ "/") p || prefix (t2 ++ "/") p.

(** ** Inputs of the Firefox recovery pipeline *)

(** [struct.pack('<I', n)] *)
Definition byte_of_Z (z : Z) : Byte.byte :=
  match Byte.of_N (Z.to_N z) with Some b => b | None => Byte.x00 end.

Definition pack_le32 (n : Z) : list Byte.byte :=
  map (fun k => byte_of_Z ((n / 2 ^ (8 * k)) mod 256)) [0; 1; 2; 3].

(** An LZ4 block holding a single run of 15 to 269 literals: the token
    [0xF0], one extra length byte, the literals. *)
Definition lz4_literal_block (data : list Byte.byte) : list Byte.byte :=
  Byte.xf0 :: byte_of_Z (Z.of_nat (List.length data) - 15) :: data.

(** [lz4.block.decompress(block, uncompressed_size=size)] on blocks made
    of one literal run shorter than 270 bytes; any other block is
    reported as [LZ4BlockError]. *)
Definition lz4_decompress_literals (blk : list Byte.byte) (size : Z)
  : result (list Byte.byte) :=
  match blk with
  | [] => Raise LZ4BlockError
  | t :: rest =>
      let lit := Carving.bz t / 16 in
      let ld :=
        if lit =? 15 then
          match rest with
          | e :: d => if Carving.bz e <? 255 then Some (15 + Carving.bz e, d) else None
          | [] => None
          end
        else Some (lit, rest) in
      match ld with
      | Some (n, data) =>
          if (Carving.bz t mod 16 =? 0) && (Z.of_nat (List.length data) =? n) && (n =? size)
          then Ok data else Raise LZ4BlockError
      | None => Raise LZ4BlockError
      end
  end.

(** A [.jsonlz4] file: the [mozLz4] magic, the size, the LZ4 block. *)
Definition mozlz4_file (data : list Byte.byte) : list Byte.byte :=
  app Session.MOZLZ4_MAGIC
      (app (pack_le32 (Z.of_nat (List.length data))) (lz4_literal_block data)).

Definition dquote : string := String (ascii_of_nat 34) EmptyString.

Definition jstr (s : string) : string := (dquote ++ s ++ dquote)%string.

Definition demo_url : string := "https://a.test/".

(** A session store with one window, one tab and one entry, whose [url]
    is [demo_url]: its JSON text and the value [json.loads] makes of it. *)
Definition demo_session_text : string :=
  ("{" ++ jstr "windows" ++ ":[{" ++ jstr "tabs" ++ ":[{" ++ jstr "entries"
   ++ ":[{" ++ jstr "url" ++ ":" ++ jstr demo_url ++ "}]}]}]}")%string.

Definition demo_session_json : Session.json :=
  Session.JObj [("windows"%string, Session.JArr [Session.JObj [("tabs"%string,
    Session.JArr [Session.JObj [("entries"%string,
      Session.JArr [Session.JObj [("url"%string, Session.JStr demo_url)]])]])]])].

(** A session store with one window and two tabs showing the same page
    [demo_url], whose entries have no title. *)
Definition two_tab_session_text : string :=
  ("{" ++ jstr "windows" ++ ":[{" ++ jstr "tabs" ++ ":[{" ++ jstr "entries"
   ++ ":[{" ++ jstr "url" ++ ":" ++ jstr demo_url ++ "}]},{" ++ jstr "entries"
   ++ ":[{" ++ jstr "url" ++ ":" ++ jstr demo_url ++ "}]}]}]}")%string.

Definition two_tab_session_json : Session.json :=
  let tab := Session.JObj [("entries"%string,
               Session.JArr [Session.JObj [("url"%string, Session.JStr demo_url)]])] in
  Session.JObj [("windows"%string, Session.JArr [Session.JObj [("tabs"%string,
    Session.JArr [tab; tab])]])].

(** [json.loads] on those two texts; other inputs are reported as
    [JSONDecodeError]. *)
Definition json_loads_demo (b : list Byte.byte) : result Session.json :=
  if Pipeline.bytes_eqb b (Carving.bytes demo_session_text) then Ok demo_session_json
  else if Pipeline.bytes_eqb b (Carving.bytes two_tab_session_text) then Ok two_tab_session_json
  else Raise JSONDecodeError.

Definition json_loads_str_none (_ : list Z) : result Session.json := Raise JSONDecodeError.

Definition visit_time_none (_ : Session.json) : result (option Z) := Ok None.

Definition fromtimestamp_zero (_ : Session.json) : result Z := Ok 0.

Definition no_profile : Pipeline.ff_profile :=
  Pipeline.mkprofile (fun _ => None) None None None None None.

Definition title_with_nul : string := String (ascii_of_nat 0) "Example".

(** The advanced recovery cannot be built ([mkdir data/raw] fails in the
    working directory) while [FirefoxForensics] can, so the basic
    forensics run. [places.sqlite] holds no visited row and the profile
    has no visit in the last week; a session backup shows [demo_url],
    untitled, in two tabs. *)
Definition fallback_inputs : Pipeline.ff_inputs :=
  Pipeline.mkinputs true false true no_profile
    (Pipeline.mkbasic (Ok true) (Some (Ok (Ok [])))
       (Some [mozlz4_file (Carving.bytes two_tab_session_text)]) None)
    (Ok []) None.

(** The same fallback, with a partially overwritten row whose URL is
    empty and no visit in the last week. *)
Definition empty_url_inputs : Pipeline.ff_inputs :=
  Pipeline.mkinputs true false true no_profile
    (Pipeline.mkbasic (Ok true)
       (Some (Ok (Ok [Pipeline.mkrow "" (Some title_with_nul) 1]))) None None)
    (Ok []) None.

(** The advanced recovery runs and reads a WAL holding two copies of one
    URL and a journal holding another, which [places.sqlite] also holds and
    the live history visited in the last week. *)
Definition advanced_inputs : Pipeline.ff_inputs :=
  Pipeline.mkinputs true true true
    (Pipeline.mkprofile (fun _ => None)
       (Some (Ok (Carving.bytes "xx https://a.test/ yy https://a.test/ zz")))
       (Some (Ok (Carving.bytes "http://b.test/page")))
       None
       (Some (Ok (Ok (Carving.bytes "SQLite format 3 http://b.test/page B"))))
       None)
    (Pipeline.mkbasic (Ok true) (Some (Ok (Ok [Pipeline.mkrow "http://b.test/page" (Some "B"%string) 1])))
       None None)
    (Ok ["http://b.test/page"%string]) None.

(** The recovery runs without the basic forensics: either
    [recover_all] returned, or neither path produced any entry and the
    session backups were read. *)
Definition basic_fallback_unused lz4 jlb jls (i : Pipeline.ff_inputs) : bool :=
  (Pipeline.f_available i && Pipeline.f_ctor_ok i
   && match Pipeline.recover_all lz4 jlb (Pipeline.f_profile i) with
      | Ok _ => true | Raise _ => false end)
  || match Pipeline.forensics_data lz4 jlb jls i with [] => true | _ => false end.

Definition good_url (u : string) : bool :=
  negb (String.eqb u "") && negb (prefix "about:" u).

(** The state of [extract_firefox_session_history]: the URLs appended are
    distinct, all in [current_urls], and all non-empty and not [about:]. *)
Definition backup_inv (st : list string * list string) : Prop :=
  NoDup (fst st) /\ (forall u, In u (fst st) -> In u (snd st)) /\
  (forall u, In u (fst st) -> good_url u = true).

(** ASCII lowering, an instance of [str.lower]. *)
Definition ascii_lower_str (s : Patterns.pystr) : Patterns.pystr :=
  map (fun c => if (65 <=? c) && (c <=? 90) then c + 32 else c) s.

(** Two downloads: an executable with a double extension from a warez
    site, and a document. *)
Definition sample_downloads : list Patterns.row :=
  [[(Patterns.ustr "url", Patterns.PStr (Patterns.ustr "http://warez.example/x"));
    (Patterns.ustr "target_path", Patterns.PStr (Patterns.ustr "/tmp/Crack.pdf.exe"))];
   [(Patterns.ustr "url", Patterns.PStr (Patterns.ustr "https://example.org/r"));
    (Patterns.ustr "target_path", Patterns.PStr (Patterns.ustr "/home/u/report.pdf"))]].

(** A match of the URL pattern of the carving strategies followed, in the
    scanned buffer, by [post]: the scheme, at least three bytes of the
    class [[^\s\x00-\x1F\x7F-\xFF]], and no such byte right after it
    (the repetition is greedy). *)
Definition url_match (m post : list Byte.byte) : Prop :=
  exists scheme run,
    (scheme = "https://"%string \/ scheme = "http://"%string) /\
    m = app (Carving.bytes scheme) run /\ (3 <= List.length run)%nat /\
    forallb Carving.url_char run = true /\
    match post with [] => True | b :: _ => Carving.url_char b = false end.

(** A record carved from [data] by a strategy labelled [method]. *)
Definition carved_in (data : list Byte.byte) (method : string) (r : Carving.rec) : Prop :=
  Carving.r_method r = method /\ Carving.keep_url (Carving.r_url r) = true /\
  exists pre m post, data = app pre (app m post) /\ url_match m post /\
                     Carving.r_url r = Carving.decode_match m.

(** Bytes of a side file holding two URLs among other text. *)
Definition carving_sample : list Byte.byte :=
  Carving.bytes "SQLite https://abc.example/x " ++ [Byte.x00] ++ Carving.bytes "http://a.b!" ++ [Byte.x7f].

(** An entry of [parse_session_data] as its loop appends it. *)
Definition basic_item_ok (it : Pipeline.fitem) : Prop :=
  Pipeline.fi_url it <> ""%string /\ Carving.internal_scheme (Pipeline.fi_url it) = false /\
  Pipeline.fi_method it = None.

(** The writer of [Cookies.binarycookies] files in the layout that
    [extract_safari_cookies] reads: a cookie is its four NUL-terminated
    strings followed by 12 bytes; a page is a little-endian cookie count
    and its cookies; a file is [cook], four bytes of page size, the
    big-endian page count and the pages. *)
Record cookie_bytes := mkcb {
  cb_host : list Byte.byte; cb_name : list Byte.byte; cb_path : list Byte.byte;
  cb_value : list Byte.byte; cb_flags : list Byte.byte }.

Definition nul_free (b : list Byte.byte) : bool :=
  forallb (fun x => negb (Byte.eqb x Byte.x00)) b.

Definition cookie_bytes_ok (c : cookie_bytes) : bool :=
  nul_free (cb_host c) && nul_free (cb_name c) && nul_free (cb_path c) &&
  nul_free (cb_value c) && (List.length (cb_flags c) =? 12)%nat.

Definition encode_cookie (c : cookie_bytes) : list Byte.byte :=
  cb_host c ++ Byte.x00 :: cb_name c ++ Byte.x00 :: cb_path c ++ Byte.x00 ::
  cb_value c ++ Byte.x00 :: cb_flags c.

Definition encode_page (cs : list cookie_bytes) : list Byte.byte :=
  pack_le32 (Z.of_nat (List.length cs)) ++ List.concat (map encode_cookie cs).

Definition binary_cookies_file (page_size : list Byte.byte)
  (pages : list (list cookie_bytes)) : list Byte.byte :=
  Carving.bytes "cook" ++ page_size ++ rev (pack_le32 (Z.of_nat (List.length pages))) ++
  List.concat (map encode_page pages).

Definition decoded (decode_ignore : list Byte.byte -> string) (c : cookie_bytes)
  : SafariCookies.safari_cookie :=
  SafariCookies.mkcookie (decode_ignore (cb_host c)) (decode_ignore (cb_name c))
    (decode_ignore (cb_path c)) (decode_ignore (cb_value c)).

(** A file of two pages holding three cookies. *)
Definition sample_cookie (host : string) : cookie_bytes :=
  mkcb (Carving.bytes host) (Carving.bytes "sid") (Carving.bytes "/")
       (Carving.bytes "42") (repeat Byte.x01 12).

Definition sample_pages : list (list cookie_bytes) :=
  [[sample_cookie "a.example"; sample_cookie "b.example"]; [sample_cookie "c.example"]].

(** The sum of the counts of a [defaultdict(int)]. *)
Definition total_count {K : Type} (d : list (K * Z)) : Z :=
  fold_right (fun kv a => snd kv + a) 0 d.

(** * Proofs *)

(** ** Timestamp conversion *)

(** C9: for each of the three encodings (microseconds since 1601,
    microseconds since 1970, seconds since 2001) a raw value of exactly
    zero is converted to [None], not to the origin of the epoch. *)
Theorem zero_timestamp_is_absent :
  forall fromtimestamp : Z -> result Z,
    Timestamps.chrome_timestamp_to_datetime 0 = Ok None /\
    Timestamps.firefox_timestamp_to_datetime fromtimestamp (Some 0) = Ok None /\
    Timestamps.safari_timestamp_to_datetime 0 = Ok None.
Proof. intros fromtimestamp. repeat split; reflexivity. Qed.

(** C4 (defect): [chrome_timestamp_to_datetime] has no upper bound and no
    [try]: a raw value of 10^18 raises [OverflowError], and 1.9 * 10^16
    (about the year 2203) gives a date after 2100-01-01. The Safari
    converter behaves the same way (10^14 seconds raises). *)
Theorem chrome_safari_timestamps_unbounded :
  Timestamps.chrome_timestamp_to_datetime (10 ^ 18) = Raise OverflowError /\
  (exists t, Timestamps.chrome_timestamp_to_datetime 19000000000000000 = Ok (Some t)
             /\ PyDatetime.datetime 2100 1 1 < t) /\
  Timestamps.safari_timestamp_to_datetime (10 ^ 14) = Raise OverflowError /\
  (exists t, Timestamps.safari_timestamp_to_datetime (10 ^ 11) = Ok (Some t)
             /\ PyDatetime.datetime 2100 1 1 < t).
Proof.
  split; [vm_compute; reflexivity|].
  split; [eexists; split; [vm_compute; reflexivity | vm_compute; reflexivity]|].
  split; [vm_compute; reflexivity|].
  eexists; split; [vm_compute; reflexivity | vm_compute; reflexivity].
Qed.

(** ** Deduplication in [recover_all] *)

Section Dedup.
Import Carving.

Lemma dedup_from_filter :
  forall u l seen,
    filter (url_is u) (dedup_from seen l) =
    if existsb (String.eqb u) seen then []
    else match find (url_is u) l with Some r => [r] | None => [] end.
Proof.
  intros u l. induction l as [|r l IH]; intros seen; simpl.
  - destruct (existsb (String.eqb u) seen); reflexivity.
  - unfold url_is at 2.
    destruct (String.eqb (r_url r) u) eqn:Hu.
    + apply String.eqb_eq in Hu. subst u.
      destruct (existsb (String.eqb (r_url r)) seen) eqn:Hseen.
      * rewrite IH, Hseen. reflexivity.
      * simpl. unfold url_is at 1. rewrite String.eqb_refl, IH. simpl.
        rewrite String.eqb_refl. reflexivity.
    + assert (Hu' : String.eqb u (r_url r) = false)
        by (rewrite String.eqb_sym; exact Hu).
      destruct (existsb (String.eqb (r_url r)) seen) eqn:Hseen.
      * apply IH.
      * simpl. unfold url_is at 1. rewrite Hu, IH. simpl. rewrite Hu'. reflexivity.
Qed.

Lemma dedup_from_nodup :
  forall l seen,
    NoDup (map r_url (dedup_from seen l)) /\
    (forall r, In r (dedup_from seen l) -> existsb (String.eqb (r_url r)) seen = false).
Proof.
  induction l as [|r l IH]; intros seen; simpl.
  - split; [constructor | contradiction].
  - destruct (existsb (String.eqb (r_url r)) seen) eqn:Hseen.
    + apply IH.
    + destruct (IH (r_url r :: seen)) as [Hnd Hnot]. split.
      * simpl. constructor; [|exact Hnd].
        intros Hin. apply in_map_iff in Hin as [r' [Heq Hin']].
        specialize (Hnot r' Hin'). simpl in Hnot. rewrite Heq, String.eqb_refl in Hnot.
        discriminate.
      * intros r' [<-|Hin]; [exact Hseen|].
        specialize (Hnot r' Hin). simpl in Hnot.
        apply orb_false_iff in Hnot as [_ H]. exact H.
Qed.

End Dedup.

(** C1 (refuted): when the WAL and a session container both carry a URL,
    [recover_all] keeps the WAL entry, which the spec's ranking puts below
    the session-container entry. *)
Lemma recover_all_keeps_wal_over_session :
  let u := "https://example.test/"%string in
  let w := Carving.mkrec u "wal_recovery" in
  let s := Carving.mkrec u "session_recovery.jsonlz4" in
  Carving.combine_recovered [w] [] [s] [] [] = [w] /\
  (spec_confidence (Carving.r_method w) < spec_confidence (Carving.r_method s))%nat.
Proof. split; vm_compute; reflexivity || lia. Qed.

(** C1 (as amended): for every URL, the combined output of the five
    strategies keeps exactly the first entry carrying it, in the discovery
    order WAL, journal, session files, free space, cookies, and no entry
    if none carries it. *)
Theorem recover_all_keeps_first_discovered :
  forall (wal journal session free cookie : list Carving.rec) (u : string),
    filter (url_is u) (Carving.combine_recovered wal journal session free cookie) =
    match find (url_is u) (wal ++ journal ++ session ++ free ++ cookie) with
    | Some r => [r]
    | None => []
    end.
Proof.
  intros. unfold Carving.combine_recovered, Carving.remove_duplicates.
  rewrite dedup_from_filter. reflexivity.
Qed.

(** ** The timeline *)

Section SortBy.
Context {A : Type} (key : A -> Z).

Lemma insert_by_perm :
  forall x l, Permutation (Analyze.insert_by key x l) (x :: l).
Proof.
  intros x l. induction l as [|y l IH]; simpl; [reflexivity|].
  destruct (key x <? key y); [reflexivity|].
  rewrite IH. apply perm_swap.
Qed.

Lemma insert_by_hdrel :
  forall x y l, HdRel (key_le key) y l -> key y <= key x ->
    HdRel (key_le key) y (Analyze.insert_by key x l).
Proof.
  intros x y l Hhd Hyx. destruct l as [|z l]; simpl.
  - constructor. exact Hyx.
  - destruct (key x <? key z); constructor; [exact Hyx|].
    inversion Hhd; assumption.
Qed.

Lemma insert_by_sorted :
  forall x l, Sorted (key_le key) l -> Sorted (key_le key) (Analyze.insert_by key x l).
Proof.
  intros x l Hs. induction Hs as [|y l Hs IH Hhd]; simpl.
  - repeat constructor.
  - destruct (key x <? key y) eqn:E.
    + apply Z.ltb_lt in E. constructor; [constructor; assumption|].
      constructor. unfold key_le. lia.
    + apply Z.ltb_ge in E. constructor; [exact IH|].
      apply insert_by_hdrel; assumption.
Qed.

Lemma sort_by_fold_perm :
  forall l acc,
    Permutation (fold_left (fun acc x => Analyze.insert_by key x acc) l acc) (acc ++ l).
Proof.
  induction l as [|x l IH]; intros acc; simpl.
  - rewrite app_nil_r. reflexivity.
  - rewrite IH, insert_by_perm. simpl. apply Permutation_middle.
Qed.

Lemma sort_by_fold_sorted :
  forall l acc, Sorted (key_le key) acc ->
    Sorted (key_le key) (fold_left (fun acc x => Analyze.insert_by key x acc) l acc).
Proof.
  induction l as [|x l IH]; intros acc Hs; simpl; [exact Hs|].
  apply IH, insert_by_sorted, Hs.
Qed.

Lemma sort_by_perm_sorted :
  forall l, Permutation (Analyze.sort_by key l) l /\ Sorted (key_le key) (Analyze.sort_by key l).
Proof.
  intros l. split.
  - apply sort_by_fold_perm.
  - apply sort_by_fold_sorted. constructor.
Qed.

Lemma filter_none {B : Type} (P : B -> bool) (m : list B) :
  (forall z, In z m -> P z = false) -> filter P m = [].
Proof.
  induction m as [|z m IH]; intros H; simpl; [reflexivity|].
  rewrite H by (left; reflexivity). apply IH. intros y Hy. apply H. right. exact Hy.
Qed.

Lemma sorted_head_le y l :
  Sorted (key_le key) (y :: l) -> forall z, In z (y :: l) -> key y <= key z.
Proof.
  intros Hs. apply Sorted_StronglySorted in Hs;
    [|intros a b c Hab Hbc; unfold key_le in *; lia].
  inversion Hs as [|? ? _ Hf]; subst.
  intros z [<-|Hz]; [lia|]. rewrite Forall_forall in Hf. apply Hf, Hz.
Qed.

(** An element whose key differs from [k] does not change the elements
    of key [k]. *)
Lemma insert_by_filter_other k x l :
  (key x =? k) = false ->
  filter (fun y => key y =? k) (Analyze.insert_by key x l) = filter (fun y => key y =? k) l.
Proof.
  intros Hx. induction l as [|y l IH]; cbn [Analyze.insert_by].
  - cbn [filter]. rewrite Hx. reflexivity.
  - destruct (key x <? key y); cbn [filter].
    + rewrite Hx. reflexivity.
    + destruct (key y =? k); [f_equal|]; exact IH.
Qed.

(** In a sorted list, an element of key [k] goes after every element of
    key [k] already there. *)
Lemma insert_by_filter_same k x l :
  key x = k -> Sorted (key_le key) l ->
  filter (fun y => key y =? k) (Analyze.insert_by key x l)
  = filter (fun y => key y =? k) l ++ [x].
Proof.
  intros Hx Hs. induction l as [|y l IH]; cbn [Analyze.insert_by].
  - cbn [filter]. rewrite Hx, Z.eqb_refl. reflexivity.
  - destruct (key x <? key y) eqn:Hlt.
    + apply Z.ltb_lt in Hlt.
      assert (Hn : filter (fun z => key z =? k) (y :: l) = []).
      { apply filter_none. intros z Hz. apply Z.eqb_neq.
        pose proof (sorted_head_le y l Hs z Hz). lia. }
      replace (filter (fun z => key z =? k) (x :: y :: l))
        with (x :: filter (fun z => key z =? k) (y :: l))
        by (cbn [filter]; rewrite Hx, Z.eqb_refl; reflexivity).
      rewrite Hn. reflexivity.
    + cbn [filter]. apply Sorted_inv in Hs as [Hs _].
      destruct (key y =? k); [cbn [app]; f_equal|]; exact (IH Hs).
Qed.

Lemma sort_by_fold_filter k l acc :
  Sorted (key_le key) acc ->
  filter (fun y => key y =? k) (fold_left (fun acc x => Analyze.insert_by key x acc) l acc)
  = filter (fun y => key y =? k) acc ++ filter (fun y => key y =? k) l.
Proof.
  revert acc. induction l as [|x l IH]; intros acc Hs; cbn [fold_left].
  - rewrite app_nil_r. reflexivity.
  - rewrite IH by (apply insert_by_sorted, Hs). cbn [filter].
    destruct (key x =? k) eqn:Hk.
    + apply Z.eqb_eq in Hk. rewrite insert_by_filter_same by assumption.
      rewrite <- app_assoc. reflexivity.
    + rewrite insert_by_filter_other by exact Hk. reflexivity.
Qed.

(** [sort_by] is stable: the elements of each key keep their order. *)
Lemma sort_by_stable l k :
  filter (fun y => key y =? k) (Analyze.sort_by key l) = filter (fun y => key y =? k) l.
Proof. unfold Analyze.sort_by. rewrite sort_by_fold_filter by constructor. reflexivity. Qed.

End SortBy.

(** C2 (refuted): a history record whose [visit_time] is empty gives no
    event at all: [build_timeline] has a single output list and the record
    is in neither of the two lists the claim describes (the result does not
    depend on the [fromisoformat] passed, since the list to sort is
    empty). *)
Lemma build_timeline_drops_untimed_record :
  Analyze.build_timeline (fun _ => None)
    [Analyze.mkhist "Firefox" "https://example.test/" (Analyze.TsStr "")] [] [] = [].
Proof. reflexivity. Qed.

(** C2 (as amended): [build_timeline] returns one list, sorted by
    non-decreasing [sort_key] (an unparseable timestamp sorts as
    [datetime.min]), which is a permutation of the events built from the
    non-empty timestamp fields of the input: one per history [visit_time],
    download [start_time] and [end_time], cookie [creation_utc] and cookie
    access time; a field that is empty gives no event. The sort is
    stable: the events with one sort key come in the order they were
    built (history, then downloads, then cookies, each in input order). *)
Theorem build_timeline_sorted_permutation :
  forall (fromisoformat : string -> option Z) history downloads cookies,
    let evs := flat_map Analyze.history_events history ++ flat_map Analyze.download_events downloads
               ++ flat_map Analyze.cookie_events cookies in
    let out := Analyze.build_timeline fromisoformat history downloads cookies in
    Permutation out evs /\
    Sorted (key_le (Analyze.sort_key fromisoformat)) out /\
    (forall k, filter (fun e => Analyze.sort_key fromisoformat e =? k) out
               = filter (fun e => Analyze.sort_key fromisoformat e =? k) evs).
Proof.
  intros fromisoformat history downloads cookies evs out.
  destruct (sort_by_perm_sorted (Analyze.sort_key fromisoformat) evs) as [Hp Hs].
  split; [exact Hp|]. split; [exact Hs|].
  intros k. apply sort_by_stable.
Qed.

(** C5 (defect): [parse_session_data] reads a file without the [mozLz4]
    magic as UTF-8 JSON and catches only [JSONDecodeError]; the single
    byte [0xFF] (no magic header, no URL) makes it raise
    [UnicodeDecodeError], whatever the decompressor and JSON parser. *)
Theorem parse_session_data_raises_on_garbage :
  forall lz4_decompress json_loads_bytes json_loads_str,
    Pipeline.parse_session_data lz4_decompress json_loads_bytes json_loads_str
      (Some [[Byte.xff]]) = Raise UnicodeDecodeError.
Proof. intros. reflexivity. Qed.

(** ** Sessions *)

Section ListFacts.
Context {A : Type}.

Lemma sorted_snoc (R : A -> A -> Prop) :
  forall l a b, Sorted R (l ++ [a]) -> R a b -> Sorted R (l ++ [a; b]).
Proof.
  induction l as [|x l IH]; intros a b Hs Hab; simpl in *.
  - repeat constructor. exact Hab.
  - inversion Hs as [|? ? Hs' Hhd]; subst. constructor; [apply IH; assumption|].
    destruct l; simpl in *; inversion Hhd; constructor; assumption.
Qed.

Lemma sorted_replace_last (R : A -> A -> Prop) :
  forall l c c', Sorted R (l ++ [c]) -> (forall x, R x c -> R x c') ->
    Sorted R (l ++ [c']).
Proof.
  induction l as [|x l IH]; intros c c' Hs Hr; simpl in *.
  - repeat constructor.
  - inversion Hs as [|? ? Hs' Hhd]; subst. constructor; [eapply IH; eassumption|].
    destruct l; simpl in *; inversion Hhd; constructor; auto.
Qed.

Lemma sorted_weaken (R R' : A -> A -> Prop) :
  (forall a b, R a b -> R' a b) -> forall l, Sorted R l -> Sorted R' l.
Proof.
  intros HR l Hs. induction Hs as [|x l Hs IH Hhd]; constructor; [exact IH|].
  destruct Hhd; constructor; auto.
Qed.

Lemma strongly_sorted_app_l (R : A -> A -> Prop) :
  forall l1 l2, StronglySorted R (l1 ++ l2) -> StronglySorted R l1.
Proof.
  induction l1 as [|x l1 IH]; intros l2 Hs; simpl in *; [constructor|].
  inversion Hs as [|? ? Hs' Hf]; subst. constructor; [eapply IH; eassumption|].
  rewrite Forall_forall in *. intros y Hy. apply Hf, in_or_app. left. exact Hy.
Qed.

Lemma strongly_sorted_app_r (R : A -> A -> Prop) :
  forall l1 l2, StronglySorted R (l1 ++ l2) -> StronglySorted R l2.
Proof.
  induction l1 as [|x l1 IH]; intros l2 Hs; simpl in *; [exact Hs|].
  inversion Hs; subst. apply IH. assumption.
Qed.

Lemma strongly_sorted_last (R : A -> A -> Prop) :
  forall l x, StronglySorted R (l ++ [x]) -> forall y, In y l -> R y x.
Proof.
  induction l as [|z l IH]; intros x Hs y Hy; simpl in *; [contradiction|].
  inversion Hs as [|? ? Hs' Hf]; subst. destruct Hy as [<-|Hy].
  - rewrite Forall_forall in Hf. apply Hf, in_or_app. right. left. reflexivity.
  - eapply IH; eassumption.
Qed.

End ListFacts.

Section Sessions.
Import Analyze.
Variable fromisoformat : string -> option Z.

Lemma new_session_wf :
  forall e t, ensure_datetime fromisoformat (ev_timestamp e) = Some t ->
    (session_wf fromisoformat) (mksession t t [e]).
Proof.
  intros e t He. split; [|split; [|split]]; cbn [events start_time end_time].
  - exists e, []. unfold ev_time. rewrite He. auto.
  - exists [], e. unfold ev_time. rewrite He. auto.
  - constructor; [|constructor]. unfold stamped. rewrite He. reflexivity.
  - repeat constructor.
Qed.

Lemma extend_session_wf :
  forall c e t, (session_wf fromisoformat) c -> ensure_datetime fromisoformat (ev_timestamp e) = Some t ->
    t - end_time c <= session_timeout ->
    (session_wf fromisoformat) (mksession (start_time c) t (events c ++ [e])).
Proof.
  intros c e t [[e0 [es0 [Hh Hs]]] [[es1 [e1 [Hl He1]]] [Hst Hsort]]] He Hgap.
  unfold session_wf; simpl. split; [|split; [|split]].
  - exists e0, (es0 ++ [e]). rewrite Hh. auto.
  - exists (events c), e. unfold ev_time. rewrite He. auto.
  - apply Forall_app. split; [exact Hst|]. constructor; [|constructor].
    unfold stamped. rewrite He. reflexivity.
  - rewrite Hl in *. rewrite <- app_assoc. simpl. apply sorted_snoc; [exact Hsort|].
    unfold gap_within.
    assert (Ht : (ev_time fromisoformat) e = t) by (unfold ev_time; rewrite He; reflexivity).
    lia.
Qed.

Lemma session_loop_spec :
  forall evs cur acc, (loop_inv fromisoformat) cur acc ->
    let res := session_loop fromisoformat cur acc evs in
    Forall (session_wf fromisoformat) res /\ Sorted gap_between res /\
    List.concat (map events res) = List.concat (map events (acc ++ opt_list cur)) ++ filter (stamped fromisoformat) evs.
Proof.
  induction evs as [|e evs IH]; intros cur acc [Hwf [Hsort Hnone]]; simpl.
  - rewrite app_nil_r. destruct cur; simpl in *; auto.
    rewrite (Hnone eq_refl) in *. simpl. auto.
  - destruct (ensure_datetime fromisoformat (ev_timestamp e)) as [t|] eqn:He.
    + assert (Hs : (stamped fromisoformat) e = true) by (unfold stamped; rewrite He; reflexivity).
      rewrite Hs.
      destruct cur as [c|].
      * simpl in Hwf, Hsort. apply Forall_app in Hwf as [Hacc Hc].
        inversion Hc as [|? ? Hc' _]; subst.
        destruct (t - end_time c >? session_timeout) eqn:Hgt.
        -- apply Z.gtb_lt in Hgt.
           destruct (IH (Some (mksession t t [e])) (acc ++ [c])) as [H1 [H2 H3]].
           { split; [|split].
             - simpl. rewrite <- app_assoc. apply Forall_app. split; [exact Hacc|].
               constructor; [exact Hc'|]. constructor; [|constructor].
               eapply new_session_wf; eassumption.
             - simpl. rewrite <- app_assoc. simpl. apply sorted_snoc; [exact Hsort|].
               unfold gap_between. simpl. lia.
             - discriminate. }
           split; [exact H1|]. split; [exact H2|]. rewrite H3.
           simpl. rewrite !map_app, !List.concat_app. simpl. rewrite !app_nil_r, <- !app_assoc.
           reflexivity.
        -- rewrite Z.gtb_ltb in Hgt. apply Z.ltb_ge in Hgt.
           destruct (IH (Some (mksession (start_time c) t (events c ++ [e]))) acc)
             as [H1 [H2 H3]].
           { split; [|split].
             - simpl. apply Forall_app. split; [exact Hacc|].
               constructor; [|constructor]. apply extend_session_wf; assumption.
             - simpl. eapply sorted_replace_last; [exact Hsort|].
               unfold gap_between; simpl. auto.
             - discriminate. }
           split; [exact H1|]. split; [exact H2|]. rewrite H3.
           simpl. rewrite !map_app, !List.concat_app. simpl. rewrite !app_nil_r, <- !app_assoc.
           reflexivity.
      * rewrite (Hnone eq_refl).
        destruct (IH (Some (mksession t t [e])) []) as [H1 [H2 H3]].
        { split; [|split].
          - simpl. constructor; [|constructor]. eapply new_session_wf; eassumption.
          - simpl. repeat constructor.
          - discriminate. }
        split; [exact H1|]. split; [exact H2|]. rewrite H3. reflexivity.
    + assert (Hs : (stamped fromisoformat) e = false) by (unfold stamped; rewrite He; reflexivity).
      rewrite Hs. apply IH. split; [exact Hwf|]. split; assumption.
Qed.

Lemma generate_sessions_spec :
  forall evs,
    let res := generate_sessions fromisoformat evs in
    Forall (session_wf fromisoformat) res /\ Sorted gap_between res /\
    List.concat (map events res) = filter (stamped fromisoformat) evs.
Proof.
  intros evs. unfold generate_sessions.
  destruct (session_loop_spec evs None []) as [H1 [H2 H3]].
  { split; [constructor|]. split; [constructor|]. auto. }
  split; [exact H1|]. split; [exact H2|]. rewrite H3. reflexivity.
Qed.

End Sessions.


(** C8: in [generate_session_analysis] a timestamped event opens a new
    session exactly when it comes more than 30 minutes after the previous
    timestamped event. The sessions list the timestamped events in input
    order; inside a session consecutive events are at most 30 minutes
    apart; each session starts at its first event and ends at its last;
    and each session starts more than 30 minutes after its predecessor
    ends. Visits at 0, 10 and 50 minutes give the sessions [0, 10] and
    [50, 50]; visits exactly 30 minutes apart stay in one session. *)
Theorem session_split_iff_gap_exceeds_timeout :
  forall (fromisoformat : string -> option Z) (evs : list Analyze.event),
    let ss := Analyze.generate_sessions fromisoformat evs in
    List.concat (map Analyze.events ss) = filter (stamped fromisoformat) evs /\
    Forall (fun s => Analyze.events s <> [] /\
                     Sorted (gap_within fromisoformat) (Analyze.events s)) ss /\
    Forall (session_wf fromisoformat) ss /\
    Sorted gap_between ss /\
    Analyze.generate_sessions fromisoformat [visit_at 0; visit_at 10; visit_at 50] =
      [Analyze.mksession 0 (10 * 60 * 1000000) [visit_at 0; visit_at 10];
       Analyze.mksession (50 * 60 * 1000000) (50 * 60 * 1000000) [visit_at 50]] /\
    Analyze.generate_sessions fromisoformat [visit_at 0; visit_at 30] =
      [Analyze.mksession 0 (30 * 60 * 1000000) [visit_at 0; visit_at 30]].
Proof.
  intros fromisoformat evs ss.
  destruct (generate_sessions_spec fromisoformat evs) as [Hwf [Hsort Hcat]].
  split; [exact Hcat|]. split.
  - rewrite Forall_forall in *. intros s Hs.
    destruct (Hwf s Hs) as [[e [es [He _]]] [_ [_ Hg]]].
    split; [rewrite He; discriminate | exact Hg].
  - split; [exact Hwf|]. split; [exact Hsort|]. split; reflexivity.
Qed.

Lemma map_ev_time_sorted_session :
  forall fromisoformat evs s,
    Sorted Z.le (map (ev_time fromisoformat) (filter (stamped fromisoformat) evs)) ->
    In s (Analyze.generate_sessions fromisoformat evs) ->
    StronglySorted Z.le (map (ev_time fromisoformat) (Analyze.events s)).
Proof.
  intros fromisoformat evs s Hs Hin.
  destruct (generate_sessions_spec fromisoformat evs) as [_ [_ Hcat]].
  apply in_split in Hin as [ss1 [ss2 Heq]].
  rewrite Heq, map_app, List.concat_app in Hcat. simpl in Hcat.
  rewrite <- Hcat, !map_app in Hs.
  apply (Sorted_StronglySorted Z.le_trans) in Hs.
  apply strongly_sorted_app_r in Hs. apply strongly_sorted_app_l in Hs. exact Hs.
Qed.

(** C7 (refuted): the segmenter does not sort; fed the visits at 50, 100
    and 0 minutes, it puts the visit at 0 in the session opened at 100,
    which then ends before it starts and holds a visit earlier than the
    visit of the first session. *)
Lemma sessions_overlap_on_unsorted_input :
  Analyze.generate_sessions (fun _ => None) [visit_at 50; visit_at 100; visit_at 0] =
    [Analyze.mksession (50 * 60 * 1000000) (50 * 60 * 1000000) [visit_at 50];
     Analyze.mksession (100 * 60 * 1000000) 0 [visit_at 100; visit_at 0]] /\
  ev_time (fun _ => None) (visit_at 0) < ev_time (fun _ => None) (visit_at 50).
Proof. split; vm_compute; reflexivity. Qed.

(** C7 (as amended): on an input whose timestamped events are in
    non-decreasing time order (the order [build_timeline] produces), the
    sessions partition the timestamped events exactly once and in order;
    every event of a session lies between the session's start and end;
    and each session ends before the next one starts. *)
Theorem sessions_partition_sorted_timeline :
  forall (fromisoformat : string -> option Z) (evs : list Analyze.event),
    Sorted Z.le (map (ev_time fromisoformat) (filter (stamped fromisoformat) evs)) ->
    let ss := Analyze.generate_sessions fromisoformat evs in
    List.concat (map Analyze.events ss) = filter (stamped fromisoformat) evs /\
    Forall (fun s => Analyze.events s <> [] /\
                     forall e, In e (Analyze.events s) ->
                       Analyze.start_time s <= ev_time fromisoformat e <= Analyze.end_time s) ss /\
    Sorted (fun s1 s2 => Analyze.end_time s1 < Analyze.start_time s2) ss.
Proof.
  intros fromisoformat evs Hsorted ss.
  destruct (generate_sessions_spec fromisoformat evs) as [Hwf [Hsort Hcat]].
  split; [exact Hcat|]. split.
  - apply Forall_forall. intros s Hin.
    pose proof (map_ev_time_sorted_session fromisoformat evs s Hsorted Hin) as Hss.
    rewrite Forall_forall in Hwf.
    destruct (Hwf s Hin) as [[e0 [es [Hh Hst]]] [[es' [el [Hl Hen]]] _]].
    split; [rewrite Hh; discriminate|].
    intros e He. split.
    + rewrite Hh in Hss, He. simpl in Hss. inversion Hss as [|? ? _ Hf]; subst.
      destruct He as [<-|He]; [lia|].
      rewrite Forall_forall in Hf. rewrite Hst. apply Hf, in_map, He.
    + rewrite Hl in Hss, He. rewrite map_app in Hss. simpl in Hss.
      apply in_app_or in He as [He|[<-|[]]]; [|lia].
      rewrite Hen. eapply strongly_sorted_last; [exact Hss|]. apply in_map, He.
  - eapply sorted_weaken; [|exact Hsort].
    intros s1 s2 Hg. unfold gap_between, Analyze.session_timeout in Hg. lia.
Qed.

(** An instance of [sessions_partition_sorted_timeline]: visits at 0, 10
    and 50 minutes. *)
Lemma sessions_partition_sorted_timeline_witness :
  Sorted Z.le (map (ev_time (fun _ => None))
                 (filter (stamped (fun _ => None)) [visit_at 0; visit_at 10; visit_at 50])) /\
  (let ss := Analyze.generate_sessions (fun _ => None) [visit_at 0; visit_at 10; visit_at 50] in
   List.concat (map Analyze.events ss) =
     filter (stamped (fun _ => None)) [visit_at 0; visit_at 10; visit_at 50] /\
   Forall (fun s => Analyze.events s <> [] /\
                    forall e, In e (Analyze.events s) ->
                      Analyze.start_time s <= ev_time (fun _ => None) e <= Analyze.end_time s) ss /\
   Sorted (fun s1 s2 => Analyze.end_time s1 < Analyze.start_time s2) ss).
Proof.
  assert (H : Sorted Z.le (map (ev_time (fun _ => None))
                 (filter (stamped (fun _ => None)) [visit_at 0; visit_at 10; visit_at 50]))).
  { vm_compute. repeat constructor; discriminate. }
  split; [exact H|].
  exact (sessions_partition_sorted_timeline (fun _ => None) _ H).
Defined.

Section SafariFrame.
Import SafariFiles.

Lemma upd_other (f : fs) (q p : string) v : p <> q -> upd f q v p = f p.
Proof. intros H. unfold upd. destruct (String.eqb_spec p q); congruence. Qed.

Lemma footprint_false_inv sp od p :
  safari_footprint sp od p = false ->
  ~ In p (sqlite_files (sp ++ "/History.db")%string) /\
  ~ In p (sqlite_files (od ++ "/safari_history_temp.db")%string) /\
  ~ In p (sqlite_files (od ++ "/safari_tombstones_temp.db")%string) /\
  prefix (String.append (od ++ "/safari_history_temp.db") "/") p = false /\
  prefix (String.append (od ++ "/safari_tombstones_temp.db") "/") p = false.
Proof.
  unfold safari_footprint. intros H.
  apply orb_false_iff in H as [H H3]. apply orb_false_iff in H as [H H2].
  assert (Hn : forall L, existsb (String.eqb p) L = false -> ~ In p L).
  { intros L HL Hin. assert (existsb (String.eqb p) L = true)
      by (apply existsb_exists; exists p; split; [exact Hin | apply String.eqb_refl]).
    congruence. }
  apply Hn in H.
  split; [intros Hi; apply H, in_or_app; left; exact Hi|].
  split; [intros Hi; apply H, in_or_app; right; apply in_or_app; left; exact Hi|].
  split; [intros Hi; apply H, in_or_app; right; apply in_or_app; right; exact Hi|].
  split; assumption.
Qed.

Variable sqlite_session : string -> sqlite_work -> fs -> fs.
Variable copy2 : fs -> string -> string -> fs * bool.
Hypothesis session_footprint :
  forall db w f p, ~ In p (sqlite_files db) -> sqlite_session db w f p = f p.
Hypothesis copy2_footprint :
  forall f src dst p, p <> dst -> prefix (String.append dst "/") p = false -> fst (copy2 f src dst) p = f p.

Lemma not_in_head db p : ~ In p (sqlite_files db) -> p <> db.
Proof. intros H ->. apply H. left. reflexivity. Qed.

Lemma deleted_history_other (f : fs) sp od p :
  ~ In p (sqlite_files (sp ++ "/History.db")%string) ->
  ~ In p (sqlite_files (od ++ "/safari_tombstones_temp.db")%string) ->
  prefix (String.append (od ++ "/safari_tombstones_temp.db") "/") p = false ->
  extract_safari_deleted_history sqlite_session copy2 f sp od p = f p.
Proof.
  intros Hh Ht Hpt. unfold extract_safari_deleted_history.
  destruct (f _); [|reflexivity].
  pose proof (copy2_footprint (sqlite_session (sp ++ "/History.db")%string CheckpointTruncate f)
                (sp ++ "/History.db")%string (od ++ "/safari_tombstones_temp.db")%string p
                (not_in_head _ _ Ht) Hpt) as Hc.
  destruct (copy2 _ _ _) as [f2 raised]. simpl in Hc.
  rewrite session_footprint in Hc by exact Hh.
  destruct raised; [exact Hc|].
  rewrite upd_other by exact (not_in_head _ _ Ht).
  rewrite session_footprint by exact Ht. exact Hc.
Qed.

Lemma extract_history_other tables_ok (f : fs) sp od p :
  safari_footprint sp od p = false ->
  extract_safari_history sqlite_session copy2 tables_ok f sp od p = f p.
Proof.
  intros Hp. apply footprint_false_inv in Hp as [Hh [H1 [H2 [Hp1 Hp2]]]].
  unfold extract_safari_history.
  destruct (f _); [|reflexivity].
  pose proof (copy2_footprint (sqlite_session (sp ++ "/History.db")%string CheckpointTruncate f)
                (sp ++ "/History.db")%string (od ++ "/safari_history_temp.db")%string p
                (not_in_head _ _ H1) Hp1) as Hc.
  destruct (copy2 _ _ _) as [f2 raised]. simpl in Hc.
  rewrite session_footprint in Hc by exact Hh.
  destruct raised; [exact Hc|].
  destruct tables_ok; [rewrite deleted_history_other by assumption|];
    rewrite upd_other by exact (not_in_head _ _ H1);
    rewrite session_footprint by exact H1; exact Hc.
Qed.

End SafariFrame.

Lemma demo_sqlite_session_footprint :
  forall db w f p, ~ In p (SafariFiles.sqlite_files db) -> demo_sqlite_session db w f p = f p.
Proof.
  intros db w f p H. unfold demo_sqlite_session.
  destruct w; try reflexivity.
  destruct (f db), (f (db ++ "-wal")%string); try reflexivity.
  rewrite !upd_other; [reflexivity| |  |];
    intros ->; apply H; simpl; auto.
Qed.

Lemma demo_copy2_footprint :
  forall f src dst p, p <> dst -> prefix (String.append dst "/") p = false ->
    fst (demo_copy2 f src dst) p = f p.
Proof. intros f src dst p H _. simpl. apply upd_other, H. Qed.




Section PipelineFacts.
Import Carving Session Pipeline.

Variable lz4_decompress : list Byte.byte -> Z -> result (list Byte.byte).
Variable json_loads_bytes : list Byte.byte -> result json.
Variable json_loads_str : list Z -> result json.
Variable session_visit_time : json -> result (option Z).
Variable forensic_fromtimestamp : json -> result Z.

Lemma mem_true_iff u l : mem u l = true <-> In u l.
Proof.
  unfold mem. rewrite existsb_exists. split.
  - intros [x [Hx He]]. apply String.eqb_eq in He. subst. exact Hx.
  - intros H. exists u. split; [exact H | apply String.eqb_refl].
Qed.

Lemma for_each_inv {S X : Type} (P : S -> Prop) (body : S -> X -> S * option exc) :
  (forall s x, P s -> P (fst (body s x))) ->
  forall l s, P s -> P (fst (for_each body s l)).
Proof.
  intros Hb l. induction l as [|x l IH]; intros s Hs; simpl; [exact Hs|].
  specialize (Hb s x Hs). destruct (body s x) as [s' [e|]]; simpl in *; auto.
Qed.

Lemma walk_entries_inv {S : Type} (P : S -> Prop) (body : S -> json -> S * option exc) :
  (forall s x, P s -> P (fst (body s x))) ->
  forall s d, P s -> P (fst (walk_entries body s d)).
Proof.
  intros Hb s d Hs. unfold walk_entries.
  destruct (_ <- py_get d _ _ ;; _) as [ws|e]; [|exact Hs].
  apply for_each_inv; [|exact Hs]. intros s1 w H1.
  destruct (_ <- py_get w _ _ ;; _) as [ts|e]; [|exact H1].
  apply for_each_inv; [|exact H1]. intros s2 t H2.
  destruct (_ <- py_get t _ _ ;; _) as [es|e]; [|exact H2].
  apply for_each_inv; assumption.
Qed.

Lemma fold_left_inv {S X : Type} (P : S -> Prop) (f : S -> X -> S) :
  (forall s x, P s -> P (f s x)) -> forall l s, P s -> P (fold_left f l s).
Proof. intros Hf l. induction l; intros s Hs; simpl; auto. Qed.

Lemma dedup_from_incl seen l r : In r (dedup_from seen l) -> In r l.
Proof.
  revert seen. induction l as [|x l IH]; intros seen H; simpl in *; [exact H|].
  destruct (existsb _ seen); [right; eapply IH; eauto|].
  destruct H as [<-|H]; [left; reflexivity | right; eapply IH; eauto].
Qed.

Lemma keep_url_good u : keep_url u = true -> good_url u = true.
Proof.
  unfold keep_url, good_url, internal_scheme.
  destruct (String.eqb u ""), (prefix "about:" u); simpl; congruence.
Qed.

Lemma scan_side_file_good m data r :
  In r (scan_side_file m data) -> good_url (r_url r) = true.
Proof.
  unfold scan_side_file. intros H. apply in_flat_map in H as [x [_ H]].
  destruct (keep_url (decode_match x)) eqn:Hk; [|contradiction].
  destruct H as [<-|[]]. apply keep_url_good, Hk.
Qed.

Lemma free_space_scan_good seen ms r :
  In r (free_space_scan seen ms) -> good_url (r_url r) = true.
Proof.
  revert seen. induction ms as [|m ms IH]; intros seen H; simpl in H; [contradiction|].
  destruct (keep_url (decode_match m)) eqn:Hk; simpl in H; [|eapply IH; eauto].
  destruct (negb _); [|eapply IH; eauto].
  destruct H as [<-|H]; [apply keep_url_good, Hk | eapply IH; eauto].
Qed.

Lemma cookies_good hosts r : In r (recover_from_cookies hosts) -> good_url (r_url r) = true.
Proof.
  unfold recover_from_cookies. destruct hosts as [[hs|]|]; try contradiction.
  intros H. apply in_flat_map in H as [h [_ H]]. unfold cookie_rec in H.
  destruct (_ && _); [|contradiction]. destruct (negb _); [|contradiction].
  destruct H as [<-|[]]. reflexivity.
Qed.

Lemma session_entry_good fname acc e :
  (forall r, In r acc -> good_url (r_url r) = true) ->
  forall r, In r (fst (session_entry fname acc e)) -> good_url (r_url r) = true.
Proof.
  intros Hacc. unfold session_entry.
  destruct (_ <- py_get e _ _ ;; _) as [url|ex]; [|exact Hacc].
  destruct (py_truthy url) eqn:Ht; [|exact Hacc].
  destruct url; try exact Hacc.
  destruct (internal_scheme s) eqn:Hi; [exact Hacc|].
  simpl. intros r Hr. apply in_app_or in Hr as [Hr|[<-|[]]]; [auto|].
  simpl in Ht. unfold good_url. simpl. unfold internal_scheme in Hi.
  apply orb_false_iff in Hi as [Ha _]. rewrite Ha, Ht. reflexivity.
Qed.

Lemma session_files_good dir r :
  In r (recover_from_session_files lz4_decompress json_loads_bytes dir) ->
  good_url (r_url r) = true.
Proof.
  unfold recover_from_session_files. destruct dir as [files|]; [|contradiction].
  revert r. apply (fold_left_inv (fun acc => forall r, In r acc -> good_url (r_url r) = true));
    [|intros r []].
  intros acc f Hacc. unfold session_file_records.
  destruct (snd f); [|exact Hacc].
  destruct (bytes_eqb _ _); [|exact Hacc].
  destruct (load_mozlz4 _ _ _) as [sd|]; [|exact Hacc].
  apply (walk_entries_inv (fun acc => forall r, In r acc -> good_url (r_url r) = true));
    [|exact Hacc].
  intros s x Hs. apply session_entry_good, Hs.
Qed.

(** When [recover_all] returns, every [exists()] check returned and its
    result combines the five strategies. *)
Lemma recover_all_ok p l :
  recover_all lz4_decompress json_loads_bytes p = Ok l ->
  exists free, recover_from_database_free_space (p_places p) = Ok free /\
    l = combine_recovered (recover_from_wal (p_wal p)) (recover_from_journal (p_journal p))
          (recover_from_session_files lz4_decompress json_loads_bytes (p_sessions p)) free
          (recover_from_cookies (p_cookie_hosts p)).
Proof.
  unfold recover_all, checked.
  destruct (p_exists_error p WalFile); cbn [bind]; [discriminate|].
  destruct (p_exists_error p JournalFile); cbn [bind]; [discriminate|].
  destruct (p_exists_error p SessionDir); cbn [bind]; [discriminate|].
  destruct (p_exists_error p PlacesDb); cbn [bind]; [discriminate|].
  destruct (recover_from_database_free_space (p_places p)) as [free|e]; cbn [bind];
    [|discriminate].
  destruct (p_exists_error p CookiesDb); cbn [bind]; [discriminate|].
  intros H. exists free. split; [reflexivity|].
  exact (f_equal (fun r => match r with Ok v => v | Raise _ => [] end) (eq_sym H)).
Qed.

Lemma recover_all_good p l r :
  recover_all lz4_decompress json_loads_bytes p = Ok l -> In r l -> good_url (r_url r) = true.
Proof.
  intros Heq Hr. destruct (recover_all_ok p l Heq) as [free [Hf ->]].
  unfold combine_recovered, remove_duplicates in Hr. apply dedup_from_incl in Hr.
  repeat (apply in_app_or in Hr as [Hr|Hr]).
  - unfold recover_from_wal, recover_side_file in Hr.
    destruct (p_wal p) as [[d|]|]; try contradiction. eapply scan_side_file_good; eauto.
  - unfold recover_from_journal, recover_side_file in Hr.
    destruct (p_journal p) as [[d|]|]; try contradiction. eapply scan_side_file_good; eauto.
  - eapply session_files_good; eauto.
  - unfold recover_from_database_free_space in Hf.
    destruct (p_places p) as [[[d|]|]|]; try discriminate; injection Hf as <-;
      [eapply free_space_scan_good; eauto | contradiction | contradiction].
  - eapply cookies_good; eauto.
Qed.

Lemma recover_all_nodup p l :
  recover_all lz4_decompress json_loads_bytes p = Ok l -> NoDup (map r_url l).
Proof.
  intros Heq. destruct (recover_all_ok p l Heq) as [free [_ ->]]. apply dedup_from_nodup.
Qed.

Lemma backup_entry_inv st e : backup_inv st -> backup_inv (fst (backup_entry session_visit_time st e)).
Proof.
  destruct st as [d c]. intros Hinv. pose proof Hinv as [Hnd [Hin Hg]].
  simpl in Hnd, Hin, Hg.
  unfold backup_entry.
  destruct (_ <- py_get e _ _ ;; _) as [[[url title] la]|ex]; [|exact Hinv].
  destruct url; try (destruct (py_truthy _); exact Hinv); try exact Hinv.
  destruct (mem s c || String.eqb s "" || prefix "about:" s) eqn:Hs; [exact Hinv|].
  apply orb_false_iff in Hs as [Hs Ha]. apply orb_false_iff in Hs as [Hm He].
  unfold backup_inv. destruct (session_visit_time la); simpl.
  - destruct (negb (String.eqb s "") && py_truthy title); simpl.
    + split; [|split].
      * apply NoDup_app; [exact Hnd | constructor; [intros []|constructor] |].
        intros u Hu [<-|[]]. apply Hin in Hu.
        apply (proj2 (mem_true_iff _ _)) in Hu. congruence.
      * intros u Hu. apply in_app_or in Hu as [Hu|[<-|[]]]; [right; auto | left; reflexivity].
      * intros u Hu. apply in_app_or in Hu as [Hu|[<-|[]]]; [auto|].
        unfold good_url. rewrite He, Ha. reflexivity.
    + split; [exact Hnd | split; [intros u Hu; right; auto | exact Hg]].
  - split; [exact Hnd | split; [intros u Hu; right; auto | exact Hg]].
Qed.

Lemma session_history_inv backups :
  NoDup (extract_firefox_session_history lz4_decompress json_loads_bytes session_visit_time backups) /\
  forall u, In u (extract_firefox_session_history lz4_decompress json_loads_bytes session_visit_time backups) ->
            good_url u = true.
Proof.
  unfold extract_firefox_session_history. destruct backups as [fs|];
    [|split; [constructor | intros u []]].
  assert (H : backup_inv (fold_left (backup_file_records lz4_decompress json_loads_bytes session_visit_time) fs ([], []))).
  { apply fold_left_inv; [|split; [constructor | split; intros u []]].
    intros st f Hst. unfold backup_file_records.
    destruct f as [[data|]|]; try exact Hst.
    destruct (bytes_eqb _ _); [|exact Hst].
    destruct (load_mozlz4 _ _ _); [|exact Hst].
    apply walk_entries_inv; [|exact Hst]. intros s x Hs. apply backup_entry_inv, Hs. }
  destruct H as [H1 [_ H3]]. split; assumption.
Qed.

Lemma forensic_entry_urls c xs :
  map r_url (flat_map (forensic_entry c) xs) =
  filter (fun u => negb (mem u c) && negb (prefix "about:" u)) (map fi_url xs).
Proof.
  induction xs as [|x xs IH]; [reflexivity|].
  cbn [flat_map map filter]. rewrite map_app, IH. unfold forensic_entry.
  destruct (negb (mem (fi_url x) c) && negb (prefix "about:" (fi_url x))); reflexivity.
Qed.

Lemma session_backup_entry_urls c us :
  map r_url (flat_map (session_backup_entry c) us) =
  filter (fun u => negb (mem u c) && negb (prefix "about:" u)) us.
Proof.
  induction us as [|x us IH]; [reflexivity|].
  cbn [flat_map map filter]. rewrite map_app, IH. unfold session_backup_entry.
  destruct (negb (mem x c) && negb (prefix "about:" x)); reflexivity.
Qed.

(** The URLs of the Firefox [deleted_history]: none when
    [extract_firefox_history] raises; otherwise the forensic items, or the
    session-backup URLs when there is none, filtered against the live URLs
    and [about:]. *)
Lemma firefox_deleted_history_urls i :
  map r_url (firefox_deleted_history lz4_decompress json_loads_bytes json_loads_str
               session_visit_time forensic_fromtimestamp i) =
  match extract_firefox_history lz4_decompress json_loads_bytes json_loads_str
          forensic_fromtimestamp i with
  | Raise _ => []
  | Ok live =>
      filter (fun u => negb (mem u live) && negb (prefix "about:" u))
        (match forensics_data lz4_decompress json_loads_bytes json_loads_str i with
         | [] => extract_firefox_session_history lz4_decompress json_loads_bytes
                   session_visit_time (f_backups i)
         | fd => map fi_url fd
         end)
  end.
Proof.
  unfold firefox_deleted_history.
  destruct (extract_firefox_history _ _ _ _ i) as [live|e]; [|reflexivity].
  destruct (forensics_data _ _ _ i) as [|x xs].
  - simpl. rewrite session_backup_entry_urls, app_nil_r. reflexivity.
  - apply forensic_entry_urls.
Qed.

(** When it does not raise, the URLs of the Firefox [deleted_history] are
    among those of the forensic items or, when there is none, of the
    session backups. *)
Lemma firefox_deleted_history_source i u :
  In u (map r_url (firefox_deleted_history lz4_decompress json_loads_bytes json_loads_str
                     session_visit_time forensic_fromtimestamp i)) ->
  In u (match forensics_data lz4_decompress json_loads_bytes json_loads_str i with
        | [] => extract_firefox_session_history lz4_decompress json_loads_bytes
                  session_visit_time (f_backups i)
        | fd => map fi_url fd
        end).
Proof.
  rewrite firefox_deleted_history_urls.
  destruct (extract_firefox_history _ _ _ _ i); [|intros []].
  intros H. apply filter_In in H as [H _]. exact H.
Qed.

Lemma forensics_data_advanced i l :
  f_available i = true -> f_ctor_ok i = true ->
  recover_all lz4_decompress json_loads_bytes (f_profile i) = Ok l ->
  map fi_url (forensics_data lz4_decompress json_loads_bytes json_loads_str i) = map r_url l.
Proof.
  intros Ha Hc Hr. unfold forensics_data. rewrite Ha, Hc, Hr, map_map. reflexivity.
Qed.

Lemma basic_fallback_unused_cases i :
  basic_fallback_unused lz4_decompress json_loads_bytes json_loads_str i = true ->
  forensics_data lz4_decompress json_loads_bytes json_loads_str i = [] \/
  exists l, recover_all lz4_decompress json_loads_bytes (f_profile i) = Ok l /\
            map fi_url (forensics_data lz4_decompress json_loads_bytes json_loads_str i) = map r_url l.
Proof.
  unfold basic_fallback_unused. intros H. apply orb_true_iff in H as [H|H].
  - right. destruct (f_available i) eqn:Ha, (f_ctor_ok i) eqn:Hc; try discriminate.
    destruct (recover_all _ _ _) as [l|] eqn:Hr; [|discriminate].
    exists l. split; [reflexivity|]. apply forensics_data_advanced; assumption.
  - left. destruct (forensics_data _ _ _ i); [reflexivity | discriminate].
Qed.

End PipelineFacts.

(** C6 (refuted): when [AdvancedFirefoxRecovery] cannot be built, the
    basic forensics concatenate their sources without removing
    duplicates: a session backup showing one untitled page in two tabs
    gives two records with one URL in [deleted_history]. The live history
    is empty: the untitled entries are not taken into it, and the profile
    has no visit in the last week. *)
Lemma fallback_path_repeats_url :
  Pipeline.extract_firefox_history lz4_decompress_literals json_loads_demo
    json_loads_str_none fromtimestamp_zero fallback_inputs = Ok [] /\
  Pipeline.firefox_deleted_history lz4_decompress_literals json_loads_demo
    json_loads_str_none visit_time_none fromtimestamp_zero fallback_inputs =
    [Carving.mkrec demo_url "advanced_forensics";
     Carving.mkrec demo_url "advanced_forensics"] /\
  ~ NoDup (map Carving.r_url
             (Pipeline.firefox_deleted_history lz4_decompress_literals json_loads_demo
                json_loads_str_none visit_time_none fromtimestamp_zero fallback_inputs)).
Proof.
  assert (E : Pipeline.firefox_deleted_history lz4_decompress_literals json_loads_demo
                json_loads_str_none visit_time_none fromtimestamp_zero fallback_inputs =
              [Carving.mkrec demo_url "advanced_forensics";
               Carving.mkrec demo_url "advanced_forensics"])
    by (vm_compute; reflexivity).
  split; [vm_compute; reflexivity|].
  split; [exact E|]. rewrite E. simpl. intros H.
  inversion H as [|? ? Hn _]. apply Hn. left. reflexivity.
Qed.

(** C6 (as amended): no record of the Firefox [deleted_history] has a URL
    of the live history built by [extract_firefox_history]; and when the
    basic forensics are not used ([recover_all] returned, or the session
    backups were read) no two records share a URL. *)
Theorem deleted_history_excludes_live_urls :
  forall (lz4 : list Byte.byte -> Z -> result (list Byte.byte))
         (jlb : list Byte.byte -> result Session.json)
         (jls : list Z -> result Session.json)
         (svt : Session.json -> result (option Z))
         (fft : Session.json -> result Z) (i : Pipeline.ff_inputs),
    let out := Pipeline.firefox_deleted_history lz4 jlb jls svt fft i in
    (forall live, Pipeline.extract_firefox_history lz4 jlb jls fft i = Ok live ->
       forall r, In r out -> ~ In (Carving.r_url r) live) /\
    (basic_fallback_unused lz4 jlb jls i = true -> NoDup (map Carving.r_url out)).
Proof.
  intros lz4 jlb jls svt fft i out.
  pose proof (firefox_deleted_history_urls lz4 jlb jls svt fft i) as E. split.
  - intros live Hlive r Hr Hl. apply (in_map Carving.r_url) in Hr. unfold out in Hr.
    rewrite E, Hlive in Hr. apply filter_In in Hr as [_ Hc].
    apply andb_true_iff in Hc as [Hm _]. apply mem_true_iff in Hl.
    rewrite Hl in Hm. discriminate.
  - intros Hb. unfold out. rewrite E.
    destruct (Pipeline.extract_firefox_history lz4 jlb jls fft i) as [live|e]; [|constructor].
    apply NoDup_filter.
    destruct (basic_fallback_unused_cases lz4 jlb jls i Hb) as [Hf|[l [Hr Hm]]].
    + rewrite Hf. apply session_history_inv.
    + destruct (Pipeline.forensics_data lz4 jlb jls i) eqn:Hfd.
      * apply session_history_inv.
      * rewrite Hm. eapply recover_all_nodup. exact Hr.
Qed.

(** An instance of [deleted_history_excludes_live_urls]: the advanced
    recovery finds a URL twice in the WAL and a live URL in the journal
    and in [places.sqlite]. *)
Lemma deleted_history_excludes_live_urls_witness :
  basic_fallback_unused lz4_decompress_literals json_loads_demo json_loads_str_none
    advanced_inputs = true /\
  NoDup (map Carving.r_url
           (Pipeline.firefox_deleted_history lz4_decompress_literals json_loads_demo
              json_loads_str_none visit_time_none fromtimestamp_zero advanced_inputs)).
Proof.
  assert (H : basic_fallback_unused lz4_decompress_literals json_loads_demo
                json_loads_str_none advanced_inputs = true) by (vm_compute; reflexivity).
  split; [exact H|].
  exact (proj2 (deleted_history_excludes_live_urls lz4_decompress_literals json_loads_demo
                  json_loads_str_none visit_time_none fromtimestamp_zero advanced_inputs) H).
Defined.

(** C10 (refuted): the basic forensics keep a partially overwritten
    [moz_places] row whatever its URL, so an empty URL reaches
    [deleted_history]; the live history is empty (the row has no URL to
    take into it and the profile no visit in the last week). *)
Lemma fallback_path_emits_empty_url :
  Pipeline.extract_firefox_history lz4_decompress_literals json_loads_demo
    json_loads_str_none fromtimestamp_zero empty_url_inputs = Ok [] /\
  Pipeline.firefox_deleted_history lz4_decompress_literals json_loads_demo
    json_loads_str_none visit_time_none fromtimestamp_zero empty_url_inputs =
    [Carving.mkrec "" "advanced_forensics"] /\
  ~ (forall r, In r (Pipeline.firefox_deleted_history lz4_decompress_literals json_loads_demo
                       json_loads_str_none visit_time_none fromtimestamp_zero empty_url_inputs) ->
               good_url (Carving.r_url r) = true).
Proof.
  assert (E : Pipeline.firefox_deleted_history lz4_decompress_literals json_loads_demo
                json_loads_str_none visit_time_none fromtimestamp_zero empty_url_inputs =
              [Carving.mkrec "" "advanced_forensics"]) by (vm_compute; reflexivity).
  split; [vm_compute; reflexivity|].
  split; [exact E|]. rewrite E. intros H.
  specialize (H _ (or_introl eq_refl)). discriminate H.
Qed.

(** C10 (as amended): every record of [recover_all] and every URL of
    [extract_firefox_session_history] is non-empty and does not begin
    with [about:]; no record of the Firefox [deleted_history] begins with
    [about:], and its URLs are non-empty as well when the basic forensics
    are not used. *)
Theorem recovered_urls_nonempty_not_about :
  forall (lz4 : list Byte.byte -> Z -> result (list Byte.byte))
         (jlb : list Byte.byte -> result Session.json)
         (jls : list Z -> result Session.json)
         (svt : Session.json -> result (option Z))
         (fft : Session.json -> result Z)
         (p : Pipeline.ff_profile) (l : list Carving.rec)
         (backups : option (list (option (result (list Byte.byte)))))
         (i : Pipeline.ff_inputs),
    (Pipeline.recover_all lz4 jlb p = Ok l ->
       forall r, In r l -> good_url (Carving.r_url r) = true) /\
    (forall u, In u (Pipeline.extract_firefox_session_history lz4 jlb svt backups) ->
       good_url u = true) /\
    (forall r, In r (Pipeline.firefox_deleted_history lz4 jlb jls svt fft i) ->
       prefix "about:" (Carving.r_url r) = false) /\
    (basic_fallback_unused lz4 jlb jls i = true ->
       forall r, In r (Pipeline.firefox_deleted_history lz4 jlb jls svt fft i) ->
       good_url (Carving.r_url r) = true).
Proof.
  intros lz4 jlb jls svt fft p l backups i.
  pose proof (firefox_deleted_history_urls lz4 jlb jls svt fft i) as E.
  split; [intros Hr r Hin; eapply recover_all_good; eauto|].
  split; [apply session_history_inv|].
  split.
  - intros r Hr. apply (in_map Carving.r_url) in Hr. rewrite E in Hr.
    destruct (Pipeline.extract_firefox_history lz4 jlb jls fft i); [|destruct Hr].
    apply filter_In in Hr as [_ Hc]. apply andb_true_iff in Hc as [_ Ha].
    apply negb_true_iff, Ha.
  - intros Hb r Hr. apply (in_map Carving.r_url) in Hr.
    apply firefox_deleted_history_source in Hr.
    destruct (basic_fallback_unused_cases lz4 jlb jls i Hb) as [Hf|[l' [Hra Hm]]].
    + rewrite Hf in Hr. apply (session_history_inv lz4 jlb svt (Pipeline.f_backups i)), Hr.
    + destruct (Pipeline.forensics_data lz4 jlb jls i) eqn:Hfd.
      * apply (session_history_inv lz4 jlb svt (Pipeline.f_backups i)), Hr.
      * rewrite Hm in Hr. apply in_map_iff in Hr as [r' [<- Hr']].
        eapply recover_all_good; eauto.
Qed.

(** An instance of [recovered_urls_nonempty_not_about]: the advanced
    recovery on a WAL, a journal and [places.sqlite]. *)
Lemma recovered_urls_nonempty_not_about_witness :
  Pipeline.recover_all lz4_decompress_literals json_loads_demo (Pipeline.f_profile advanced_inputs) =
    Ok [Carving.mkrec demo_url "wal_recovery";
        Carving.mkrec "http://b.test/page" "journal_recovery"] /\
  basic_fallback_unused lz4_decompress_literals json_loads_demo json_loads_str_none
    advanced_inputs = true /\
  (forall r, In r [Carving.mkrec demo_url "wal_recovery";
                   Carving.mkrec "http://b.test/page" "journal_recovery"] ->
             good_url (Carving.r_url r) = true) /\
  (forall r, In r (Pipeline.firefox_deleted_history lz4_decompress_literals json_loads_demo
                     json_loads_str_none visit_time_none fromtimestamp_zero advanced_inputs) ->
             good_url (Carving.r_url r) = true).
Proof.
  assert (H1 : Pipeline.recover_all lz4_decompress_literals json_loads_demo
                 (Pipeline.f_profile advanced_inputs) =
               Ok [Carving.mkrec demo_url "wal_recovery";
                   Carving.mkrec "http://b.test/page" "journal_recovery"])
    by (vm_compute; reflexivity).
  assert (H2 : basic_fallback_unused lz4_decompress_literals json_loads_demo
                 json_loads_str_none advanced_inputs = true) by (vm_compute; reflexivity).
  destruct (recovered_urls_nonempty_not_about lz4_decompress_literals json_loads_demo
              json_loads_str_none visit_time_none fromtimestamp_zero
              (Pipeline.f_profile advanced_inputs)
              [Carving.mkrec demo_url "wal_recovery";
               Carving.mkrec "http://b.test/page" "journal_recovery"]
              None advanced_inputs) as [P1 [_ [_ P4]]].
  split; [exact H1|]. split; [exact H2|]. split; [exact (P1 H1) | exact (P4 H2)].
Defined.

(** * Further properties of the code *)

Section CountFacts.

Lemma fold_count_add {X : Type} (c : X -> bool) (w : Z) (ps : list X) (a : Z) :
  fold_left (fun acc p => if c p then acc + w else acc) ps a
  = a + w * Z.of_nat (List.length (filter c ps)).
Proof.
  revert a. induction ps as [|p ps IH]; intros a; simpl; [lia|].
  destruct (c p); rewrite IH; simpl List.length; lia.
Qed.

Lemma length_flat_map_single {X Y : Type} (c : X -> bool) (f : X -> Y) (ps : list X) :
  List.length (flat_map (fun p => if c p then [f p] else []) ps) = List.length (filter c ps).
Proof.
  induction ps as [|p ps IH]; simpl; [reflexivity|].
  rewrite length_app, IH. destruct (c p); reflexivity.
Qed.

Lemma filter_flat_map_snd {X Y : Type} (c : Y -> bool) (l : list (X * list Y)) :
  filter c (flat_map snd l) = flat_map (fun cp => filter c (snd cp)) l.
Proof.
  induction l as [|cp l IH]; simpl; [reflexivity|]. rewrite filter_app, IH. reflexivity.
Qed.

Lemma length_flat_map_filter_le {X Y : Type} (f : X -> list Y) (h : X -> bool) (l : list X) :
  (List.length (flat_map f (filter h l)) <= List.length (flat_map f l))%nat.
Proof.
  induction l as [|x l IH]; simpl; [lia|].
  destruct (h x); simpl; rewrite !length_app; lia.
Qed.

Lemma length_flat_map_ext {X Y W : Type} (f : X -> list Y) (g : X -> list W) (l : list X) :
  (forall x, List.length (f x) = List.length (g x)) ->
  List.length (flat_map f l) = List.length (flat_map g l).
Proof.
  intros H. induction l as [|x l IH]; simpl; [reflexivity|].
  rewrite !length_app, H, IH. reflexivity.
Qed.

End CountFacts.

Section RiskFacts.
Import Patterns.

Lemma weighted_fold (c : pystr -> bool) (l : list (pystr * list pystr)) (a : Z) :
  fold_left (fun acc cp =>
    fold_left (fun acc p => if c p then acc + (if heavy_category (fst cp) then 2 else 1) else acc)
      (snd cp) acc) l a
  = a + Z.of_nat (List.length (flat_map (fun cp => filter c (snd cp)) l))
      + Z.of_nat (List.length (flat_map (fun cp => filter c (snd cp))
                                 (filter (fun cp => heavy_category (fst cp)) l))).
Proof.
  revert a. induction l as [|cp l IH]; intros a; simpl; [lia|].
  rewrite IH, fold_count_add.
  destruct (heavy_category (fst cp)); cbn [filter flat_map]; rewrite ?length_app; lia.
Qed.


End RiskFacts.

(** [assess_domain_risk] and [get_risk_factors] agree: the score is the
    number of factors plus one for each [darkweb] or [malware] pattern
    found, so a domain scores above zero exactly when it has a risk
    factor, and the score is between the number of factors and twice it. *)
Theorem domain_risk_counts_factors :
  forall (ip_match : Patterns.pystr -> bool) (domain : Patterns.pystr),
    let factors := Patterns.get_risk_factors ip_match domain in
    Patterns.assess_domain_risk ip_match domain =
      Z.of_nat (List.length factors)
      + Z.of_nat (List.length (filter (fun p => Patterns.contains p domain)
                                      Patterns.heavy_patterns)) /\
    (0 < Patterns.assess_domain_risk ip_match domain <-> factors <> []) /\
    Z.of_nat (List.length factors) <= Patterns.assess_domain_risk ip_match domain
      <= 2 * Z.of_nat (List.length factors).
Proof.
  intros ip d factors.
  pose (A := flat_map (fun cp => filter (fun p => Patterns.contains p d) (snd cp))
               Patterns.suspicious_domains).
  pose (H := flat_map (fun cp => filter (fun p => Patterns.contains p d) (snd cp))
               (filter (fun cp => Patterns.heavy_category (fst cp)) Patterns.suspicious_domains)).
  pose (B := filter (fun k => Patterns.contains k d) Patterns.suspicious_keywords).
  assert (Hle : (List.length H <= List.length A)%nat) by apply length_flat_map_filter_le.
  assert (Hh : filter (fun p => Patterns.contains p d) Patterns.heavy_patterns = H)
    by (unfold Patterns.heavy_patterns; apply filter_flat_map_snd).
  rewrite Hh.
  destruct (ip d) eqn:Eip; destruct (50 <? List.length d)%nat eqn:El.
  all: assert (Hf : List.length factors =
                    (List.length A + List.length B
                     + (if ip d then 1 else 0) + (if (50 <? List.length d)%nat then 1 else 0))%nat)
         by (unfold factors, A, B, Patterns.get_risk_factors; rewrite !length_app;
             rewrite (length_flat_map_ext _
                        (fun cp => filter (fun p => Patterns.contains p d) (snd cp)))
               by (intros; apply length_flat_map_single);
             rewrite (length_flat_map_single (fun k => Patterns.contains k d));
             rewrite Eip, El; simpl List.length; lia).
  all: assert (Hr : Patterns.assess_domain_risk ip d =
                    Z.of_nat (List.length A) + Z.of_nat (List.length H)
                    + Z.of_nat (List.length B)
                    + (if ip d then 1 else 0) + (if (50 <? List.length d)%nat then 1 else 0))
         by (unfold A, B, H, Patterns.assess_domain_risk; rewrite weighted_fold, fold_count_add;
             rewrite Eip, El; lia).
  all: rewrite Eip, El in Hf, Hr.
  all: split; [rewrite Hr, Hf; lia|].
  all: split; [|rewrite Hr, Hf; lia].
  all: split; [intros Hpos E; rewrite E in Hf; simpl in Hf; lia|].
  all: intros Hne; assert (Hn : List.length factors <> 0%nat)
         by (intros E; apply Hne, length_zero_iff_nil, E); lia.
Qed.

Section DownloadFacts.
Import Patterns.

Lemma pystr_eqb_spec a b : pystr_eqb a b = true <-> a = b.
Proof. unfold pystr_eqb. destruct (list_eq_dec Z.eq_dec a b); split; congruence. Qed.

Lemma incr_total {K} (eqb : K -> K -> bool) k d : total_count (incr eqb k d) = total_count d + 1.
Proof.
  induction d as [|[k' n] d IH]; simpl; [reflexivity|].
  unfold total_count in *. simpl in *.
  destruct (eqb k k'); simpl; [lia|]. rewrite IH. lia.
Qed.

Lemma incr_keys {K} (eqb : K -> K -> bool) k d :
  (forall a b, eqb a b = true <-> a = b) ->
  map fst (incr eqb k d) = map fst d \/ (map fst (incr eqb k d) = map fst d ++ [k] /\ ~ In k (map fst d)).
Proof.
  intros Heq. induction d as [|[k' n] d IH]; simpl; [right; split; [reflexivity | intros []]|].
  destruct (eqb k k') eqn:E; [left; reflexivity|].
  destruct IH as [IH|[IH Hn]]; [left; simpl; rewrite IH; reflexivity|].
  right. simpl. rewrite IH. split; [reflexivity|].
  intros [H|H]; [subst; rewrite (proj2 (Heq k k) eq_refl) in E; discriminate | exact (Hn H)].
Qed.

Lemma incr_nodup {K} (eqb : K -> K -> bool) k d :
  (forall a b, eqb a b = true <-> a = b) ->
  NoDup (map fst d) -> NoDup (map fst (incr eqb k d)).
Proof.
  intros Heq Hnd. destruct (incr_keys eqb k d Heq) as [E|[E Hn]]; rewrite E; [exact Hnd|].
  apply NoDup_app; [exact Hnd | repeat constructor; intros [] | ].
  intros a Ha [<-|[]]. exact (Hn Ha).
Qed.

Lemma incr_forall {K} (eqb : K -> K -> bool) (P : K -> Prop) k d :
  P k -> Forall (fun kv => P (fst kv) /\ 0 < snd kv) d ->
  Forall (fun kv => P (fst kv) /\ 0 < snd kv) (incr eqb k d).
Proof.
  intros Hk Hd. induction Hd as [|[k' n] d Hkv Hd IH]; simpl.
  - constructor; [simpl; split; [exact Hk | lia] | constructor].
  - destruct Hkv as [Hk' Hn]. simpl in Hk', Hn. destruct (eqb k k').
    + constructor; [simpl; split; [exact Hk' | lia] | exact Hd].
    + constructor; [split; assumption | exact IH].
Qed.

Lemma categorize_in tp : In (categorize tp) download_categories.
Proof.
  unfold categorize, download_categories.
  repeat match goal with |- context [if ?b then _ else _] => destruct b end; simpl; tauto.
Qed.

Lemma download_risk_bounds url filename :
  Z.of_nat (List.length (snd (download_risk url filename))) <= fst (download_risk url filename)
  <= 2 * Z.of_nat (List.length (snd (download_risk url filename))).
Proof.
  pose (P := fun st : Z * list pystr =>
               Z.of_nat (List.length (snd st)) <= fst st <= 2 * Z.of_nat (List.length (snd st))).
  assert (Hstep : forall st x n, (n = 1 \/ n = 2) -> P st ->
                  P (fst st + n, snd st ++ [x])).
  { intros st x n Hn HP. unfold P in *. destruct st as [sc fs]. cbn [fst snd] in *.
    rewrite length_app. cbn [List.length]. lia. }
  assert (H1 : P (fold_left (fun st cp =>
             fold_left (fun st pattern =>
               if contains pattern url
               then (fst st + 2, snd st ++ [ustr "Downloaded from " ++ fst cp ++ ustr " source"])
               else st) (snd cp) st) suspicious_domains (0, []))).
  { apply fold_left_inv; [|unfold P; simpl; lia].
    intros st cp Hst. apply fold_left_inv; [|exact Hst].
    intros st' p Hst'. destruct (contains p url); [apply Hstep; auto | exact Hst']. }
  assert (H2 : P (fold_left (fun st keyword =>
             if contains keyword filename
             then (fst st + 1, snd st ++ [ustr "Filename contains '" ++ keyword ++ ustr "'"])
             else st) suspicious_keywords
           (fold_left (fun st cp =>
             fold_left (fun st pattern =>
               if contains pattern url
               then (fst st + 2, snd st ++ [ustr "Downloaded from " ++ fst cp ++ ustr " source"])
               else st) (snd cp) st) suspicious_domains (0, [])))).
  { apply fold_left_inv; [|exact H1].
    intros st k Hst. destruct (contains k filename); [apply Hstep; auto | exact Hst]. }
  unfold download_risk. fold P.
  destruct (1 <? _)%nat; [destruct (existsb _ _)|]; [apply Hstep; auto | exact H2 | exact H2].
Qed.

Lemma lowered_fields_ok str_lower item :
  match lowered_fields str_lower item with
  | Ok _ => lowerable item (ustr "url") && lowerable item (ustr "target_path") = true
  | Raise e => e = AttributeError /\
               lowerable item (ustr "url") && lowerable item (ustr "target_path") = false
  end.
Proof.
  unfold lowered_fields, lowerable, row_get, py_lower.
  destruct (row_lookup (ustr "url") item) as [[| |]|];
    destruct (row_lookup (ustr "target_path") item) as [[| |]|]; simpl; auto.
Qed.

Lemma download_loop_spec str_lower rows stats sus stats' sus' :
  download_loop str_lower rows stats sus = Ok (stats', sus') ->
  total_count stats' = total_count stats + Z.of_nat (List.length rows) /\
  (NoDup (map fst stats) -> NoDup (map fst stats')) /\
  (Forall (fun kv => In (fst kv) download_categories /\ 0 < snd kv) stats ->
   Forall (fun kv => In (fst kv) download_categories /\ 0 < snd kv) stats') /\
  map sd_item sus' = map sd_item sus ++
    filter (fun r => negb (match row_factors str_lower r with [] => true | _ => false end)) rows /\
  (Forall (fun s => 0 < sd_score s /\ sd_factors s <> [] /\
                    sd_factors s = row_factors str_lower (sd_item s)) sus ->
   Forall (fun s => 0 < sd_score s /\ sd_factors s <> [] /\
                    sd_factors s = row_factors str_lower (sd_item s)) sus').
Proof.
  revert stats sus. induction rows as [|item rows IH]; intros stats sus H; simpl in H.
  - injection H as <- <-. simpl. rewrite app_nil_r.
    repeat split; auto; lia.
  - destruct (lowered_fields str_lower item) as [[url tp]|e] eqn:Hl; simpl in H; [|discriminate].
    destruct (download_risk url (basename tp)) as [score factors] eqn:Hr.
    pose proof (download_risk_bounds url (basename tp)) as Hb. rewrite Hr in Hb. simpl in Hb.
    assert (Hrf : row_factors str_lower item = factors)
      by (unfold row_factors; rewrite Hl, Hr; reflexivity).
    destruct (IH _ _ H) as [T [N [F [M G]]]]. split; [|split; [|split; [|split]]].
    + rewrite T, incr_total. simpl List.length. lia.
    + intros Hnd. apply N, incr_nodup; [apply pystr_eqb_spec | exact Hnd].
    + intros Hf. apply F, (incr_forall _ (fun k => In k download_categories));
      [apply categorize_in | exact Hf].
    + rewrite M. simpl. rewrite Hrf.
      destruct factors as [|f fs]; simpl in Hb.
      * assert (Hs : (0 <? score) = false) by (apply Z.ltb_ge; lia). rewrite Hs. reflexivity.
      * assert (Hs : (0 <? score) = true) by (apply Z.ltb_lt; lia). rewrite Hs.
        rewrite map_app, <- app_assoc. reflexivity.
    + intros Hs. apply G. destruct (0 <? score) eqn:Hsc; [|exact Hs].
      apply Forall_app. split; [exact Hs|]. constructor; [|constructor]. simpl.
      apply Z.ltb_lt in Hsc. split; [exact Hsc|]. split; [|symmetry; exact Hrf].
      intros E. simpl in E. rewrite E in Hb. simpl in Hb. lia.
Qed.

Lemma download_loop_ok str_lower rows stats sus :
  match download_loop str_lower rows stats sus with
  | Ok _ => forallb (fun r => lowerable r (ustr "url") && lowerable r (ustr "target_path")) rows = true
  | Raise e => e = AttributeError /\
      forallb (fun r => lowerable r (ustr "url") && lowerable r (ustr "target_path")) rows = false
  end.
Proof.
  revert stats sus. induction rows as [|item rows IH]; intros stats sus; simpl; [reflexivity|].
  pose proof (lowered_fields_ok str_lower item) as Hl.
  destruct (lowered_fields str_lower item) as [[url tp]|e]; simpl.
  - rewrite Hl. simpl. destruct (download_risk url (basename tp)). apply IH.
  - destruct Hl as [He Hf]. rewrite Hf. split; [exact He | reflexivity].
Qed.

End DownloadFacts.

(** [analyze_download_patterns] counts every download in exactly one of
    the five categories, each category present at most once and with a
    positive count, and lists as suspicious exactly the downloads (in
    input order) for which it records a risk factor, each with a positive
    score. *)
Theorem download_stats_partition_downloads :
  forall (str_lower : Patterns.pystr -> Patterns.pystr) (rows : list Patterns.row)
         stats sus,
    Patterns.analyze_download_patterns str_lower rows = Ok (stats, sus) ->
    total_count stats = Z.of_nat (List.length rows) /\
    NoDup (map fst stats) /\
    Forall (fun kv => In (fst kv) Patterns.download_categories /\ 0 < snd kv) stats /\
    map Patterns.sd_item sus =
      filter (fun r => negb (match Patterns.row_factors str_lower r with
                             | [] => true | _ => false end)) rows /\
    Forall (fun s => 0 < Patterns.sd_score s /\ Patterns.sd_factors s <> [] /\
                     Patterns.sd_factors s = Patterns.row_factors str_lower (Patterns.sd_item s)) sus.
Proof.
  intros str_lower rows stats sus H.
  destruct (download_loop_spec str_lower rows [] [] stats sus H) as [T [N [F [M G]]]].
  split; [rewrite T; reflexivity|]. split; [apply N; constructor|].
  split; [apply F; constructor|]. split; [exact M | apply G; constructor].
Qed.


(** Instance of [download_stats_partition_downloads] on two rows. *)
Lemma download_stats_partition_downloads_witness :
  exists stats sus,
    Patterns.analyze_download_patterns ascii_lower_str sample_downloads = Ok (stats, sus) /\
    total_count stats = Z.of_nat (List.length sample_downloads) /\
    NoDup (map fst stats) /\
    Forall (fun kv => In (fst kv) Patterns.download_categories /\ 0 < snd kv) stats /\
    map Patterns.sd_item sus =
      filter (fun r => negb (match Patterns.row_factors ascii_lower_str r with
                             | [] => true | _ => false end)) sample_downloads /\
    Forall (fun s => 0 < Patterns.sd_score s /\ Patterns.sd_factors s <> [] /\
                     Patterns.sd_factors s = Patterns.row_factors ascii_lower_str (Patterns.sd_item s)) sus.
Proof.
  destruct (Patterns.analyze_download_patterns ascii_lower_str sample_downloads)
    as [[stats sus]|e] eqn:E; [|vm_compute in E; discriminate].
  exists stats, sus. split; [reflexivity|].
  exact (download_stats_partition_downloads ascii_lower_str sample_downloads stats sus E).
Defined.

(** [analyze_download_patterns] returns exactly when every row's [url] and
    [target_path] are strings or missing; otherwise (a short CSV row gives
    [None]) [.lower()] raises [AttributeError]. *)
Theorem download_patterns_raise_on_non_string :
  forall (str_lower : Patterns.pystr -> Patterns.pystr) (rows : list Patterns.row),
    match Patterns.analyze_download_patterns str_lower rows with
    | Ok _ => forallb (fun r => Patterns.lowerable r (Patterns.ustr "url") &&
                                Patterns.lowerable r (Patterns.ustr "target_path")) rows = true
    | Raise e => e = AttributeError /\
        forallb (fun r => Patterns.lowerable r (Patterns.ustr "url") &&
                          Patterns.lowerable r (Patterns.ustr "target_path")) rows = false
    end.
Proof. intros str_lower rows. apply download_loop_ok. Qed.

Section TimestampFacts.
Import PyDatetime Timestamps.

Lemma datetime_1601 : datetime 1601 1 1 = 50491123200000000.
Proof. vm_compute. reflexivity. Qed.

Lemma datetime_2001 : datetime 2001 1 1 = 63113904000000000.
Proof. vm_compute. reflexivity. Qed.

Lemma datetime_max : MAXORDINAL * US_PER_DAY = 315537897600000000.
Proof. vm_compute. reflexivity. Qed.

End TimestampFacts.

(** A non-zero Chrome timestamp [t] converts to 1601-01-01 plus [t]
    microseconds exactly when that instant lies in years 1..9999, and
    raises [OverflowError] otherwise: the [timedelta] bound is never the
    deciding check, and negative timestamps down to year 1 are accepted. *)
Theorem chrome_timestamp_exact_range :
  forall t,
    Timestamps.chrome_timestamp_to_datetime t =
    if t =? 0 then Ok None
    else let r := PyDatetime.datetime 1601 1 1 + t in
         if (0 <=? r) && (r <? PyDatetime.MAXORDINAL * PyDatetime.US_PER_DAY)
         then Ok (Some r) else Raise OverflowError.
Proof.
  intros t. unfold Timestamps.chrome_timestamp_to_datetime.
  destruct (t =? 0); [reflexivity|].
  unfold PyDatetime.timedelta_us, PyDatetime.add, bind.
  rewrite datetime_1601, datetime_max.
  unfold PyDatetime.MAX_DELTA_DAYS, PyDatetime.US_PER_DAY.
  pose proof (Z.div_mod t (86400 * 1000000) ltac:(lia)) as Hdm.
  pose proof (Z.mod_pos_bound t (86400 * 1000000) ltac:(lia)) as Hmb.
  destruct (Z.abs (t / (86400 * 1000000)) >? 999999999) eqn:E1.
  - apply Z.gtb_lt in E1.
    destruct (0 <=? 50491123200000000 + t) eqn:E2; [|reflexivity].
    destruct (50491123200000000 + t <? 315537897600000000) eqn:E3; [|reflexivity].
    apply Z.leb_le in E2. apply Z.ltb_lt in E3. exfalso.
    generalize dependent (t / (86400 * 1000000)). generalize dependent (t mod (86400 * 1000000)).
    intros. lia.
  - clear Hdm Hmb E1. cbv zeta. generalize (50491123200000000 + t) as x. intros x.
    destruct (Z.ltb_spec x 0); destruct (Z.leb_spec 315537897600000000 x);
      destruct (Z.leb_spec 0 x); destruct (Z.ltb_spec x 315537897600000000);
      cbn [orb andb]; try reflexivity; exfalso; lia.
Qed.

(** A non-zero Safari timestamp [t] (whole seconds) converts to 2001-01-01
    plus [t] seconds exactly when that instant lies in years 1..9999, and
    raises [OverflowError] otherwise. *)
Theorem safari_timestamp_exact_range :
  forall t,
    Timestamps.safari_timestamp_to_datetime t =
    if t =? 0 then Ok None
    else let r := PyDatetime.datetime 2001 1 1 + t * 1000000 in
         if (0 <=? r) && (r <? PyDatetime.MAXORDINAL * PyDatetime.US_PER_DAY)
         then Ok (Some r) else Raise OverflowError.
Proof.
  intros t. unfold Timestamps.safari_timestamp_to_datetime.
  destruct (t =? 0); [reflexivity|].
  unfold PyDatetime.timedelta_s, PyDatetime.add, bind.
  rewrite datetime_2001, datetime_max.
  unfold PyDatetime.MAX_DELTA_DAYS.
  pose proof (Z.div_mod t 86400 ltac:(lia)) as Hdm.
  pose proof (Z.mod_pos_bound t 86400 ltac:(lia)) as Hmb.
  destruct (Z.abs (t / 86400) >? 999999999) eqn:E1.
  - apply Z.gtb_lt in E1.
    destruct (0 <=? 63113904000000000 + t * 1000000) eqn:E2; [|reflexivity].
    destruct (63113904000000000 + t * 1000000 <? 315537897600000000) eqn:E3; [|reflexivity].
    apply Z.leb_le in E2. apply Z.ltb_lt in E3. exfalso.
    generalize dependent (t / 86400). generalize dependent (t mod 86400).
    intros. lia.
  - clear Hdm Hmb E1. cbv zeta. generalize (63113904000000000 + t * 1000000) as x. intros x.
    destruct (Z.ltb_spec x 0); destruct (Z.leb_spec 315537897600000000 x);
      destruct (Z.leb_spec 0 x); destruct (Z.ltb_spec x 315537897600000000);
      cbn [orb andb]; try reflexivity; exfalso; lia.
Qed.

Section CarvingFacts.
Import Carving.

Lemma strip_prefix_app p l r : strip_prefix p l = Some r -> l = app p r.
Proof.
  revert l. induction p as [|c p IH]; intros l H; simpl in H.
  - injection H as <-. reflexivity.
  - destruct l as [|b l]; [discriminate|].
    destruct (Byte.eqb c b) eqn:E; [|discriminate].
    apply Byte.byte_dec_bl in E. subst. simpl. f_equal. apply IH, H.
Qed.

Lemma url_run_split l :
  exists rest, l = app (url_run l) rest /\ forallb url_char (url_run l) = true /\
               match rest with [] => True | b :: _ => url_char b = false end.
Proof.
  induction l as [|b l IH]; simpl; [exists []; auto|].
  destruct (url_char b) eqn:E.
  - destruct IH as [rest [H1 [H2 H3]]]. exists rest. simpl. rewrite E, <- H1, H2. auto.
  - exists (b :: l). auto.
Qed.

Lemma match_scheme_spec scheme l m :
  match_scheme scheme l = Some m ->
  exists run post, m = app (bytes scheme) run /\ l = app m post /\
    (3 <= List.length run)%nat /\ forallb url_char run = true /\
    match post with [] => True | b :: _ => url_char b = false end.
Proof.
  unfold match_scheme. destruct (strip_prefix (bytes scheme) l) as [r|] eqn:Hs; [|discriminate].
  apply strip_prefix_app in Hs.
  destruct (Nat.leb_spec 3 (List.length (url_run r))) as [Hl|Hl]; [|discriminate].
  intros H. injection H as <-.
  destruct (url_run_split r) as [rest [Hr [Hf Hp]]].
  exists (url_run r), rest. split; [reflexivity|]. split; [|auto].
  rewrite Hs, <- app_assoc, <- Hr. reflexivity.
Qed.

Lemma match_url_at_spec l m :
  match_url_at l = Some m -> exists post, l = app m post /\ url_match m post.
Proof.
  unfold match_url_at. intros H.
  destruct (match_scheme "https://" l) as [m'|] eqn:E1.
  - injection H as <-. apply match_scheme_spec in E1 as [run [post [Hm [Hl [H3 [Hf Hp]]]]]].
    exists post. split; [exact Hl|]. exists "https://"%string, run. auto.
  - apply match_scheme_spec in H as [run [post [Hm [Hl [H3 [Hf Hp]]]]]].
    exists post. split; [exact Hl|]. exists "http://"%string, run. auto.
Qed.

Lemma finditer_url_from_spec skip l m :
  In m (finditer_url_from skip l) ->
  exists pre post, l = app pre (app m post) /\ url_match m post.
Proof.
  revert skip. induction l as [|b t IH]; intros skip H; simpl in H; [contradiction|].
  assert (Hrest : forall k, In m (finditer_url_from k t) ->
                  exists pre post, b :: t = app pre (app m post) /\ url_match m post).
  { intros k Hk. destruct (IH k Hk) as [pre [post [E Hu]]].
    exists (b :: pre), post. rewrite E. auto. }
  destruct skip as [|k]; [|eapply Hrest; eauto].
  destruct (match_url_at (b :: t)) as [m'|] eqn:Hm; [|eapply Hrest; eauto].
  destruct H as [<-|H]; [|eapply Hrest; eauto].
  apply match_url_at_spec in Hm as [post [E Hu]]. exists [], post. auto.
Qed.

Lemma scan_side_file_carved method data r :
  In r (scan_side_file method data) -> carved_in data method r.
Proof.
  unfold scan_side_file. intros H. apply in_flat_map in H as [m [Hm H]].
  destruct (keep_url (decode_match m)) eqn:Hk; [|contradiction].
  destruct H as [<-|[]].
  apply finditer_url_from_spec in Hm as [pre [post [E Hu]]].
  split; [reflexivity|]. split; [exact Hk|]. exists pre, m, post. auto.
Qed.

Lemma free_space_scan_spec seen ms :
  NoDup (map r_url (free_space_scan seen ms)) /\
  forall r, In r (free_space_scan seen ms) ->
    ~ In (r_url r) seen /\ r_method r = "database_free_space"%string /\
    keep_url (r_url r) = true /\ exists m, In m ms /\ r_url r = decode_match m.
Proof.
  revert seen. induction ms as [|m ms IH]; intros seen; simpl; [split; [constructor | intros r []]|].
  destruct (keep_url (decode_match m)) eqn:Hk; simpl;
    [|destruct (IH seen) as [N F]; split; [exact N|];
      intros r Hr; destruct (F r Hr) as [A [B [C [m' [D E]]]]]; repeat split; auto;
      exists m'; auto].
  destruct (existsb (String.eqb (decode_match m)) seen) eqn:He; simpl.
  - destruct (IH seen) as [N F]. split; [exact N|].
    intros r Hr. destruct (F r Hr) as [A [B [C [m' [D E]]]]]. repeat split; auto. exists m'; auto.
  - destruct (IH (decode_match m :: seen)) as [N F]. split.
    + constructor; [|exact N]. intros Hin. apply in_map_iff in Hin as [r [Hu Hr]].
      destruct (F r Hr) as [A _]. apply A. left. symmetry. exact Hu.
    + intros r [<-|Hr].
      * simpl. repeat split; auto; [|exists m; auto].
        intros Hin. assert (existsb (String.eqb (decode_match m)) seen = true)
          by (apply existsb_exists; exists (decode_match m); split; [exact Hin | apply String.eqb_refl]).
        congruence.
      * destruct (F r Hr) as [A [B [C [m' [D E]]]]]. repeat split; auto; [|exists m'; auto].
        intros Hin. apply A. right. exact Hin.
Qed.

End CarvingFacts.

(** Every record of [recover_from_wal] (resp. [recover_from_journal]) is
    carved from the bytes of [places.sqlite-wal] (resp.
    [places.sqlite-journal]): the file was read, its URL is the decoding of
    a substring [http://] or [https://] followed by a maximal run of at
    least three printable non-space ASCII bytes, it is neither empty nor
    [about:] nor [place:], and it carries the strategy's label. *)
Theorem side_file_records_are_carved_urls :
  forall (f : Carving.side_file) r,
    (In r (Carving.recover_from_wal f) ->
     exists data, f = Some (Ok data) /\ carved_in data "wal_recovery" r) /\
    (In r (Carving.recover_from_journal f) ->
     exists data, f = Some (Ok data) /\ carved_in data "journal_recovery" r).
Proof.
  intros f r. unfold Carving.recover_from_wal, Carving.recover_from_journal, Carving.recover_side_file.
  destruct f as [[data|e]|]; split; intros H; try contradiction;
    exists data; split; auto; apply scan_side_file_carved, H.
Qed.

(** [recover_from_database_free_space] returns each URL at most once; each
    of its records is carved from the scratch copy of [places.sqlite] in the
    same way as the WAL records and is labelled [database_free_space]. *)
Theorem free_space_records_distinct_carved :
  forall places l,
    Carving.recover_from_database_free_space places = Ok l ->
    NoDup (map Carving.r_url l) /\
    forall r, In r l -> exists data, places = Some (Ok (Ok data)) /\
                                     carved_in data "database_free_space" r.
Proof.
  intros places l H. unfold Carving.recover_from_database_free_space in H.
  destruct places as [[[data|e]|e]|]; try discriminate; injection H as <-;
    try (split; [constructor | intros r []]).
  destruct (free_space_scan_spec [] (Carving.finditer_url data)) as [N F].
  split; [exact N|]. intros r Hr. exists data. split; [reflexivity|].
  destruct (F r Hr) as [_ [Hm [Hk [m [Hin Hu]]]]].
  apply finditer_url_from_spec in Hin as [pre [post [E Hmatch]]].
  split; [exact Hm|]. split; [exact Hk|]. exists pre, m, post. auto.
Qed.

(** Instance of [side_file_records_are_carved_urls]: a URL of a WAL file. *)
Lemma side_file_records_are_carved_urls_witness :
  In (Carving.mkrec "http://a.b!" "wal_recovery")
     (Carving.recover_from_wal (Some (Ok carving_sample))) /\
  exists data, (Some (Ok carving_sample) : Carving.side_file) = Some (Ok data) /\
               carved_in data "wal_recovery" (Carving.mkrec "http://a.b!" "wal_recovery").
Proof.
  assert (H : In (Carving.mkrec "http://a.b!" "wal_recovery")
                 (Carving.recover_from_wal (Some (Ok carving_sample))))
    by (vm_compute; right; left; reflexivity).
  split; [exact H|].
  exact (proj1 (side_file_records_are_carved_urls (Some (Ok carving_sample)) _) H).
Defined.

(** Instance of [free_space_records_distinct_carved] on the same bytes. *)
Lemma free_space_records_distinct_carved_witness :
  exists l, Carving.recover_from_database_free_space (Some (Ok (Ok carving_sample))) = Ok l /\
    NoDup (map Carving.r_url l) /\
    forall r, In r l -> exists data, (Some (Ok (Ok carving_sample))) = Some (Ok (Ok data)) /\
                                     carved_in data "database_free_space" r.
Proof.
  destruct (Carving.recover_from_database_free_space (Some (Ok (Ok carving_sample))))
    as [l|e] eqn:E; [|vm_compute in E; discriminate].
  exists l. split; [reflexivity|].
  exact (free_space_records_distinct_carved _ l E).
Defined.

Section HeaderFacts.
Import Carving Session.

Lemma bz_byte_of_Z x : 0 <= x < 256 -> bz (byte_of_Z x) = x.
Proof.
  intros Hx. unfold byte_of_Z, bz.
  destruct (Byte.of_N (Z.to_N x)) as [b|] eqn:E.
  - apply Byte.to_of_N in E. rewrite E. lia.
  - apply Byte.of_N_None_iff in E. lia.
Qed.

Lemma unpack_pack_le32 n : 0 <= n < 2 ^ 32 -> unpack_le32 (pack_le32 n) = Ok n.
Proof.
  intros Hn. unfold pack_le32. cbn [map]. unfold unpack_le32.
  rewrite !bz_byte_of_Z by (apply Z.mod_pos_bound; lia).
  f_equal. change (2 ^ (8 * 0)) with 1. change (2 ^ (8 * 1)) with 256.
  change (2 ^ (8 * 2)) with 65536. change (2 ^ (8 * 3)) with 16777216.
  change (2 ^ 32) with 4294967296 in Hn. rewrite Z.div_1_r.
  assert (E2 : n / 65536 = n / 256 / 256) by (rewrite Z.div_div by lia; reflexivity).
  assert (E3 : n / 16777216 = n / 256 / 256 / 256) by (rewrite !Z.div_div by lia; reflexivity).
  rewrite E2, E3.
  pose proof (Z.div_mod n 256 ltac:(lia)).
  pose proof (Z.mod_pos_bound n 256 ltac:(lia)).
  assert (Hq : 0 <= n / 256 / 256 / 256 < 256).
  { rewrite !Z.div_div by lia. split; [apply Z.div_pos; lia | apply Z.div_lt_upper_bound; lia]. }
  remember (n / 256) as q1. pose proof (Z.div_mod q1 256 ltac:(lia)).
  pose proof (Z.mod_pos_bound q1 256 ltac:(lia)).
  remember (q1 / 256) as q2. pose proof (Z.div_mod q2 256 ltac:(lia)).
  pose proof (Z.mod_pos_bound q2 256 ltac:(lia)).
  remember (q2 / 256) as q3.
  rewrite (Z.mod_small q3 256 Hq).
  lia.
Qed.

End HeaderFacts.

(** [load_mozlz4] reads back the header it is given: on the magic, the
    little-endian size [n] and a payload, it decompresses exactly the
    payload with [uncompressed_size=n] and parses the result. *)
Theorem load_mozlz4_reads_header :
  forall (lz4_decompress : list Byte.byte -> Z -> result (list Byte.byte))
         (json_loads_bytes : list Byte.byte -> result Session.json) n payload,
    0 <= n < 2 ^ 32 ->
    Pipeline.load_mozlz4 lz4_decompress json_loads_bytes
      (app Session.MOZLZ4_MAGIC (app (pack_le32 n) payload)) =
    (jd <- lz4_decompress payload n ;; json_loads_bytes jd).
Proof.
  intros lz4 jlb n payload Hn. unfold Pipeline.load_mozlz4.
  assert (Hf : firstn 4 (skipn 8 (app Session.MOZLZ4_MAGIC (app (pack_le32 n) payload)))
               = pack_le32 n) by reflexivity.
  assert (Hs : skipn 12 (app Session.MOZLZ4_MAGIC (app (pack_le32 n) payload)) = payload)
    by reflexivity.
  rewrite Hf, Hs, unpack_pack_le32 by exact Hn. reflexivity.
Qed.

(** Instance of [load_mozlz4_reads_header]: the session file used for the
    deleted-history scenarios. *)
Lemma load_mozlz4_reads_header_witness :
  0 <= 40 < 2 ^ 32 /\
  Pipeline.load_mozlz4 lz4_decompress_literals json_loads_demo
    (app Session.MOZLZ4_MAGIC (app (pack_le32 40) (lz4_literal_block (Carving.bytes demo_session_text)))) =
  (jd <- lz4_decompress_literals (lz4_literal_block (Carving.bytes demo_session_text)) 40 ;;
   json_loads_demo jd).
Proof.
  split; [lia|]. apply load_mozlz4_reads_header. lia.
Defined.

(** [recover_all] returns exactly when none of the [Path.exists()]
    checks of its five strategies raises (they run outside the strategies'
    [try] blocks) and the scratch copy of [places.sqlite] does not raise;
    an exception it raises is one of those. Every other failure of its
    strategies is caught and only loses that strategy's records. *)
Theorem recover_all_raises_only_on_exists_or_copy :
  forall lz4_decompress json_loads_bytes p,
    ((exists l, Pipeline.recover_all lz4_decompress json_loads_bytes p = Ok l) <->
       (forall s, Pipeline.p_exists_error p s = None) /\
       (forall e, Pipeline.p_places p <> Some (Raise e))) /\
    (forall e, Pipeline.recover_all lz4_decompress json_loads_bytes p = Raise e ->
       (exists s, Pipeline.p_exists_error p s = Some e) \/
       Pipeline.p_places p = Some (Raise e)).
Proof.
  intros lz4 jlb p. unfold Pipeline.recover_all, Pipeline.checked.
  split; [split|].
  - intros [l H].
    destruct (Pipeline.p_exists_error p Pipeline.WalFile) eqn:E1; cbn [bind] in H;
      [discriminate|].
    destruct (Pipeline.p_exists_error p Pipeline.JournalFile) eqn:E2; cbn [bind] in H;
      [discriminate|].
    destruct (Pipeline.p_exists_error p Pipeline.SessionDir) eqn:E3; cbn [bind] in H;
      [discriminate|].
    destruct (Pipeline.p_exists_error p Pipeline.PlacesDb) eqn:E4; cbn [bind] in H;
      [discriminate|].
    destruct (Carving.recover_from_database_free_space (Pipeline.p_places p)) eqn:Ef;
      cbn [bind] in H; [|discriminate].
    destruct (Pipeline.p_exists_error p Pipeline.CookiesDb) eqn:E5; cbn [bind] in H;
      [discriminate|].
    split; [intros []; assumption|].
    intros e He. rewrite He in Ef. discriminate Ef.
  - intros [Hs Hp]. rewrite !Hs. cbn [bind].
    destruct (Pipeline.p_places p) as [[[d|e']|e']|] eqn:Ep; simpl; eauto.
    exfalso. exact (Hp e' eq_refl).
  - intros e H.
    destruct (Pipeline.p_exists_error p Pipeline.WalFile) as [e1|] eqn:E1; cbn [bind] in H.
    { left. exists Pipeline.WalFile. inversion H. subst. exact E1. }
    destruct (Pipeline.p_exists_error p Pipeline.JournalFile) as [e1|] eqn:E2; cbn [bind] in H.
    { left. exists Pipeline.JournalFile. inversion H. subst. exact E2. }
    destruct (Pipeline.p_exists_error p Pipeline.SessionDir) as [e1|] eqn:E3; cbn [bind] in H.
    { left. exists Pipeline.SessionDir. inversion H. subst. exact E3. }
    destruct (Pipeline.p_exists_error p Pipeline.PlacesDb) as [e1|] eqn:E4; cbn [bind] in H.
    { left. exists Pipeline.PlacesDb. inversion H. subst. exact E4. }
    destruct (Carving.recover_from_database_free_space (Pipeline.p_places p)) as [f|ef] eqn:Ef;
      cbn [bind] in H.
    + destruct (Pipeline.p_exists_error p Pipeline.CookiesDb) as [e1|] eqn:E5;
        cbn [bind] in H; [|discriminate].
      left. exists Pipeline.CookiesDb. inversion H. subst. exact E5.
    + right. inversion H. subst.
      destruct (Pipeline.p_places p) as [[[d|e']|e']|]; simpl in Ef; try discriminate.
      inversion Ef. reflexivity.
Qed.

Section ParseFacts.
Import Carving Session Pipeline.

Lemma parse_entry_inv acc e :
  Forall basic_item_ok acc -> Forall basic_item_ok (fst (parse_entry acc e)).
Proof.
  intros Hacc. unfold parse_entry.
  destruct (_ <- py_get e _ _ ;; _) as [[[url title] la]|ex]; [|exact Hacc].
  destruct (py_truthy url) eqn:Ht; [|exact Hacc].
  destruct url; try exact Hacc.
  destruct (internal_scheme s) eqn:Hi; [exact Hacc|].
  simpl. apply Forall_app. split; [exact Hacc|]. constructor; [|constructor].
  split; [|split; [exact Hi | reflexivity]]. simpl in *.
  intros ->. discriminate.
Qed.

Lemma parse_session_file_spec lz4 jlb jls acc data :
  Forall basic_item_ok acc ->
  match parse_session_file lz4 jlb jls acc data with
  | Ok l => Forall basic_item_ok l
  | Raise e => e <> JSONDecodeError
  end.
Proof.
  intros Hacc. unfold parse_session_file.
  destruct (if bytes_eqb _ _ then _ else _) as [sd|ex].
  - pose proof (walk_entries_inv (Forall basic_item_ok) parse_entry
                  (fun s x Hs => parse_entry_inv s x Hs) acc sd Hacc) as Hw.
    destruct (walk_entries parse_entry acc sd) as [acc' [ex|]]; simpl in Hw; [|exact Hw].
    destruct ex; try exact Hw; discriminate.
  - destruct ex; try exact Hacc; discriminate.
Qed.

End ParseFacts.

(** [FirefoxForensics.parse_session_data] lists only entries with a
    non-empty URL that starts with neither [about:] nor [place:], and no
    entry carries a [recovery_method]; when it raises, the exception is
    not a [JSONDecodeError] (those end the current file quietly). *)
Theorem parse_session_data_entries :
  forall lz4_decompress json_loads_bytes json_loads_str dir,
    match Pipeline.parse_session_data lz4_decompress json_loads_bytes json_loads_str dir with
    | Ok l => Forall basic_item_ok l
    | Raise e => e <> JSONDecodeError
    end.
Proof.
  intros lz4 jlb jls dir. unfold Pipeline.parse_session_data.
  destruct dir as [files|]; [|constructor].
  assert (H : forall acc, Forall basic_item_ok acc ->
            match Pipeline.parse_session_files lz4 jlb jls acc files with
            | Ok l => Forall basic_item_ok l
            | Raise e => e <> JSONDecodeError
            end).
  { induction files as [|data files IH]; intros acc Hacc; simpl; [exact Hacc|].
    pose proof (parse_session_file_spec lz4 jlb jls acc data Hacc) as Hf.
    destruct (Pipeline.parse_session_file lz4 jlb jls acc data) as [acc'|e]; simpl;
      [apply IH, Hf | exact Hf]. }
  apply H. constructor.
Qed.

Section SessionStatsFacts.
Import Analyze SessionStats.

Lemma fold_events_length (l : list session) a :
  fold_left (fun acc s => acc + Z.of_nat (List.length (events s))) l a =
  a + Z.of_nat (List.length (List.concat (map events l))).
Proof.
  revert a. induction l as [|s l IH]; intros a; simpl; [lia|].
  rewrite IH, length_app. lia.
Qed.

Lemma hour_range dt : 0 <= hour dt < 24.
Proof.
  unfold hour, PyDatetime.US_PER_DAY.
  pose proof (Z.mod_pos_bound dt (86400 * 1000000) ltac:(lia)).
  split; [apply Z.div_pos; lia | apply Z.div_lt_upper_bound; lia].
Qed.

Lemma Zeqb_spec' a b : Z.eqb a b = true <-> a = b.
Proof. apply Z.eqb_eq. Qed.

Lemma fold_hours_spec (l : list session) d :
  NoDup (map fst d) -> Forall (fun kv => (0 <= fst kv < 24) /\ 0 < snd kv) d ->
  let d' := fold_left (fun acc s => Patterns.incr Z.eqb (hour (start_time s)) acc) l d in
  total_count d' = total_count d + Z.of_nat (List.length l) /\
  NoDup (map fst d') /\ Forall (fun kv => (0 <= fst kv < 24) /\ 0 < snd kv) d'.
Proof.
  revert d. induction l as [|s l IH]; intros d Hnd Hf; simpl; [repeat split; auto; lia|].
  destruct (IH (Patterns.incr Z.eqb (hour (start_time s)) d)) as [T [N F]].
  - apply incr_nodup; [apply Zeqb_spec' | exact Hnd].
  - apply (incr_forall _ (fun k => 0 <= k < 24)); [apply hour_range | exact Hf].
  - split; [|split; assumption]. rewrite T, incr_total. lia.
Qed.

End SessionStatsFacts.

(** The counters of [session_stats] agree with the sessions:
    [total_events] is the number of events with a usable timestamp,
    the [peak_activity_hours] counts add up to [total_sessions], each hour
    is listed once, lies in [0..23] and has a positive count, and there
    is no session exactly when no event has a usable timestamp. *)
Theorem session_stats_consistent :
  forall (fromisoformat : string -> option Z) (evs : list Analyze.event),
    let sessions := Analyze.generate_sessions fromisoformat evs in
    let '(total_sessions, total_events, peaks) := SessionStats.session_counts sessions in
    total_events = Z.of_nat (List.length (filter (stamped fromisoformat) evs)) /\
    total_count peaks = total_sessions /\
    NoDup (map fst peaks) /\
    Forall (fun kv => (0 <= fst kv < 24) /\ 0 < snd kv) peaks /\
    (total_sessions = 0 <-> filter (stamped fromisoformat) evs = []).
Proof.
  intros iso evs. cbv zeta. unfold SessionStats.session_counts.
  destruct (generate_sessions_spec iso evs) as [Hwf [_ Hc]].
  destruct (fold_hours_spec (Analyze.generate_sessions iso evs) [] ltac:(constructor) ltac:(constructor))
    as [T [N F]].
  split; [rewrite fold_events_length, Hc; lia|].
  split; [rewrite T; reflexivity|].
  split; [exact N|]. split; [exact F|].
  rewrite <- Hc. destruct (Analyze.generate_sessions iso evs) as [|s ss] eqn:E; simpl;
    [split; reflexivity|].
  split; [lia|]. inversion Hwf as [|? ? Hs _]. destruct Hs as [[e [es [He _]]] _].
  rewrite He. discriminate.
Qed.

Section CookieFacts.
Import SafariCookies.
Variable decode_ignore : list Byte.byte -> string.

Ltac len_simpl := repeat progress (rewrite ?length_app; cbn [List.length]).

Lemma skipn_app_length {A} (a b : list A) k : skipn (List.length a + k) (a ++ b) = skipn k b.
Proof. induction a; simpl; auto. Qed.

Lemma take_nonnul_app s r : nul_free s = true -> take_nonnul (s ++ Byte.x00 :: r) = s.
Proof.
  induction s as [|x s IH]; simpl; intros H; [reflexivity|].
  apply andb_true_iff in H as [Hx Hs]. destruct (Byte.eqb x Byte.x00); [discriminate|].
  f_equal. apply IH, Hs.
Qed.

Lemma read_string_enc data o s r :
  skipn o data = s ++ Byte.x00 :: r -> nul_free s = true ->
  read_string decode_ignore data o = (decode_ignore s, o + List.length s + 1)%nat /\
  skipn (o + List.length s + 1) data = r.
Proof.
  intros Hd Hs. unfold read_string. rewrite Hd, take_nonnul_app by exact Hs.
  split; [reflexivity|]. replace (o + List.length s + 1)%nat with (List.length s + 1 + o)%nat by lia.
  rewrite <- skipn_skipn, Hd, skipn_app_length. reflexivity.
Qed.

Lemma read_cookie_enc data o c r :
  skipn o data = encode_cookie c ++ r -> cookie_bytes_ok c = true ->
  read_cookie decode_ignore data o = (decoded decode_ignore c, o + List.length (encode_cookie c))%nat /\
  skipn (o + List.length (encode_cookie c)) data = r.
Proof.
  intros Hd Hok. unfold cookie_bytes_ok in Hok.
  apply andb_true_iff in Hok as [Hok Hf]. apply andb_true_iff in Hok as [Hok Hv].
  apply andb_true_iff in Hok as [Hok Hp]. apply andb_true_iff in Hok as [Hh Hn].
  apply Nat.eqb_eq in Hf. unfold encode_cookie in *.
  repeat (rewrite <- app_assoc in Hd; cbn [app] in Hd).
  destruct (read_string_enc data o _ _ Hd Hh) as [R1 S1].
  repeat (rewrite <- app_assoc in S1; cbn [app] in S1).
  destruct (read_string_enc data _ _ _ S1 Hn) as [R2 S2].
  repeat (rewrite <- app_assoc in S2; cbn [app] in S2).
  destruct (read_string_enc data _ _ _ S2 Hp) as [R3 S3].
  repeat (rewrite <- app_assoc in S3; cbn [app] in S3).
  destruct (read_string_enc data _ _ _ S3 Hv) as [R4 S4].
  unfold read_cookie. rewrite R1, R2, R3, R4.
  split; [f_equal; len_simpl; lia|].
  match goal with |- skipn ?x _ = _ =>
    replace x with (12 + (o + List.length (cb_host c) + 1 + List.length (cb_name c) + 1 +
                List.length (cb_path c) + 1 + List.length (cb_value c) + 1))%nat
      by (len_simpl; lia) end.
  rewrite <- skipn_skipn, S4.
  replace 12%nat with (List.length (cb_flags c) + 0)%nat by lia.
  apply skipn_app_length.
Qed.

Lemma cookies_loop_enc data cs o acc r :
  skipn o data = List.concat (map encode_cookie cs) ++ r ->
  Forall (fun c => cookie_bytes_ok c = true) cs ->
  cookies_loop decode_ignore data (List.length cs) o acc =
    (acc ++ map (decoded decode_ignore) cs, o + List.length (List.concat (map encode_cookie cs)))%nat /\
  skipn (o + List.length (List.concat (map encode_cookie cs))) data = r.
Proof.
  revert o acc. induction cs as [|c cs IH]; intros o acc Hd Hok; cbn [List.length cookies_loop].
  - rewrite app_nil_r. simpl in *. rewrite Nat.add_0_r. auto.
  - inversion Hok as [|? ? Hc Hcs]; subst.
    cbn [map List.concat] in Hd. rewrite <- app_assoc in Hd.
    destruct (read_cookie_enc data o c _ Hd Hc) as [R S1].
    rewrite R. destruct (IH _ (acc ++ [decoded decode_ignore c]) S1 Hcs) as [R' S'].
    cbn [map List.concat]. rewrite R', <- app_assoc, length_app, Nat.add_assoc. auto.
Qed.

Lemma le_be_int_unpack b z :
  Session.unpack_le32 b = Ok z -> le_int b = z /\ be_int (rev b) = z.
Proof.
  destruct b as [|a [|b [|c [|d [|]]]]]; cbv beta iota delta [Session.unpack_le32];
    try discriminate.
  intros H. apply (f_equal (fun r => match r with Ok v => v | Raise _ => 0 end)) in H.
  cbv beta iota in H. subst z.
  cbv beta iota fix delta [le_int be_int fold_right rev app fold_left].
  split; lia.
Qed.

Lemma le_int_pack_le32 n : 0 <= n < 2 ^ 32 -> le_int (pack_le32 n) = n.
Proof. intros Hn. apply (le_be_int_unpack _ _ (unpack_pack_le32 n Hn)). Qed.

Lemma be_int_pack_le32 n : 0 <= n < 2 ^ 32 -> be_int (rev (pack_le32 n)) = n.
Proof. intros Hn. apply (le_be_int_unpack _ _ (unpack_pack_le32 n Hn)). Qed.

Lemma pages_loop_enc data pages o acc :
  skipn o data = List.concat (map encode_page pages) ->
  Forall (fun cs => Z.of_nat (List.length cs) < 2 ^ 32 /\
                    Forall (fun c => cookie_bytes_ok c = true) cs) pages ->
  pages_loop decode_ignore data (List.length pages) o acc =
    acc ++ map (decoded decode_ignore) (List.concat pages).
Proof.
  revert o acc. induction pages as [|cs pages IH]; intros o acc Hd Hok; cbn [List.length pages_loop].
  - rewrite app_nil_r. reflexivity.
  - inversion Hok as [|? ? [Hlen Hcs] Hps]; subst.
    cbn [map List.concat] in Hd. unfold encode_page in Hd. rewrite <- !app_assoc in Hd.
    assert (Hge : (o + 4 <= List.length data)%nat).
    { pose proof (f_equal (@List.length _) Hd) as L. rewrite length_skipn in L.
      rewrite length_app in L. unfold pack_le32 in L. simpl in L. lia. }
    destruct (Nat.ltb_spec (List.length data) (o + 4)) as [Hlt|_]; [lia|].
    assert (Hs : slice o (o + 4) data = pack_le32 (Z.of_nat (List.length cs))).
    { unfold slice. replace (o + 4 - o)%nat with 4%nat by lia. rewrite Hd. reflexivity. }
    rewrite Hs, le_int_pack_le32 by lia. rewrite Nat2Z.id.
    assert (Hd' : skipn (o + 4) data =
                  List.concat (map encode_cookie cs) ++ List.concat (map encode_page pages)).
    { replace (o + 4)%nat with (4 + o)%nat by lia. rewrite <- skipn_skipn, Hd. reflexivity. }
    destruct (cookies_loop_enc data cs (o + 4) acc _ Hd' Hcs) as [R S1].
    rewrite R, IH by assumption. cbn [List.concat]. rewrite map_app, app_assoc. reflexivity.
Qed.

Lemma read_string_past data o :
  (List.length data <= o)%nat -> read_string decode_ignore data o = (decode_ignore [], S o).
Proof.
  intros H. unfold read_string. rewrite skipn_all2 by exact H. simpl. f_equal. lia.
Qed.

Lemma cookies_loop_past_end data k o acc :
  (List.length data <= o)%nat ->
  fst (cookies_loop decode_ignore data k o acc) =
  acc ++ repeat (mkcookie (decode_ignore []) (decode_ignore []) (decode_ignore [])
                          (decode_ignore [])) k.
Proof.
  revert o acc. induction k as [|k IH]; intros o acc H; cbn [cookies_loop].
  - rewrite app_nil_r. reflexivity.
  - unfold read_cookie.
    rewrite read_string_past by lia. cbv beta iota zeta.
    rewrite read_string_past by lia. cbv beta iota zeta.
    rewrite read_string_past by lia. cbv beta iota zeta.
    rewrite read_string_past by lia. cbv beta iota zeta.
    rewrite IH by lia. rewrite <- app_assoc. reflexivity.
Qed.
End CookieFacts.

(** [extract_safari_cookies] reads back every cookie of a well-formed
    [Cookies.binarycookies] file, in file order: for any page size field,
    any pages of cookies whose four strings hold no NUL byte and whose
    flags take 12 bytes, it returns the decoded strings of all the
    cookies. *)
Theorem binary_cookies_round_trip :
  forall (decode_ignore : list Byte.byte -> string) page_size pages,
    List.length page_size = 4%nat ->
    Z.of_nat (List.length pages) < 2 ^ 32 ->
    Forall (fun cs => Z.of_nat (List.length cs) < 2 ^ 32 /\
                      Forall (fun c => cookie_bytes_ok c = true) cs) pages ->
    SafariCookies.parse_binary_cookies decode_ignore (binary_cookies_file page_size pages) =
    map (decoded decode_ignore) (List.concat pages).
Proof.
  intros dec page_size pages Hps Hn Hok.
  destruct page_size as [|a [|b [|c [|d [|]]]]]; try discriminate.
  unfold SafariCookies.parse_binary_cookies.
  set (data := binary_cookies_file [a; b; c; d] pages).
  assert (H4 : (List.length data <? 4)%nat = false) by reflexivity.
  assert (Hc : Pipeline.bytes_eqb (firstn 4 data) (Carving.bytes "cook") = true) by reflexivity.
  assert (Hs : SafariCookies.slice 8 12 data = rev (pack_le32 (Z.of_nat (List.length pages))))
    by reflexivity.
  assert (Hd : skipn 12 data = List.concat (map encode_page pages)) by reflexivity.
  rewrite H4, Hc. cbn [orb negb].
  rewrite Hs, be_int_pack_le32 by lia. rewrite Nat2Z.id.
  apply pages_loop_enc; assumption.
Qed.

(** A page header of [Cookies.binarycookies] that declares [n] cookies
    with no byte after it makes [extract_safari_cookies] return [n] cookies
    whose four strings are all decoded from empty byte strings: reading
    past the end of the data is not detected. *)
Theorem binary_cookies_truncated_page :
  forall (decode_ignore : list Byte.byte -> string) page_size n,
    List.length page_size = 4%nat -> 0 <= n < 2 ^ 32 ->
    SafariCookies.parse_binary_cookies decode_ignore
      (Carving.bytes "cook" ++ page_size ++ rev (pack_le32 1) ++ pack_le32 n) =
    repeat (SafariCookies.mkcookie (decode_ignore []) (decode_ignore [])
                                   (decode_ignore []) (decode_ignore [])) (Z.to_nat n).
Proof.
  intros dec page_size n Hps Hn.
  destruct page_size as [|a [|b [|c [|d [|]]]]]; try discriminate.
  unfold SafariCookies.parse_binary_cookies.
  set (data := Carving.bytes "cook" ++ [a; b; c; d] ++ rev (pack_le32 1) ++ pack_le32 n).
  assert (H4 : (List.length data <? 4)%nat = false) by reflexivity.
  assert (Hc : Pipeline.bytes_eqb (firstn 4 data) (Carving.bytes "cook") = true) by reflexivity.
  assert (Hs : SafariCookies.slice 8 12 data = rev (pack_le32 1)) by reflexivity.
  assert (Hl : List.length data = 16%nat) by reflexivity.
  assert (Hs' : SafariCookies.slice 12 (12 + 4) data = pack_le32 n) by reflexivity.
  rewrite H4, Hc. cbn [orb negb].
  rewrite Hs, be_int_pack_le32 by lia. change (Z.to_nat 1) with 1%nat.
  cbn [SafariCookies.pages_loop]. rewrite Hl. cbn [Nat.ltb Nat.leb]. rewrite Hs', le_int_pack_le32 by exact Hn.
  pose proof (cookies_loop_past_end dec data (Z.to_nat n) (12 + 4) [] ltac:(rewrite Hl; lia)) as E.
  destruct (SafariCookies.cookies_loop dec data (Z.to_nat n) (12 + 4) []) as [acc o].
  simpl in E. exact E.
Qed.

(** Instance of [binary_cookies_round_trip]: two pages, three cookies. *)
Lemma binary_cookies_round_trip_witness :
  List.length (repeat Byte.x00 4) = 4%nat /\
  Z.of_nat (List.length sample_pages) < 2 ^ 32 /\
  Forall (fun cs => Z.of_nat (List.length cs) < 2 ^ 32 /\
                    Forall (fun c => cookie_bytes_ok c = true) cs) sample_pages /\
  SafariCookies.parse_binary_cookies string_of_list_byte
    (binary_cookies_file (repeat Byte.x00 4) sample_pages) =
  map (decoded string_of_list_byte) (List.concat sample_pages).
Proof.
  assert (H1 : List.length (repeat Byte.x00 4) = 4%nat) by reflexivity.
  assert (H2 : Z.of_nat (List.length sample_pages) < 2 ^ 32) by (vm_compute; reflexivity).
  assert (H3 : Forall (fun cs => Z.of_nat (List.length cs) < 2 ^ 32 /\
                                 Forall (fun c => cookie_bytes_ok c = true) cs) sample_pages)
    by (repeat constructor).
  split; [exact H1|]. split; [exact H2|]. split; [exact H3|].
  exact (binary_cookies_round_trip string_of_list_byte _ _ H1 H2 H3).
Defined.

(** Instance of [binary_cookies_truncated_page]: a page declaring three
    cookies and holding none. *)
Lemma binary_cookies_truncated_page_witness :
  List.length (repeat Byte.x00 4) = 4%nat /\ 0 <= 3 < 2 ^ 32 /\
  SafariCookies.parse_binary_cookies string_of_list_byte
    (Carving.bytes "cook" ++ repeat Byte.x00 4 ++ rev (pack_le32 1) ++ pack_le32 3) =
  repeat (SafariCookies.mkcookie (string_of_list_byte []) (string_of_list_byte [])
                                 (string_of_list_byte []) (string_of_list_byte [])) (Z.to_nat 3).
Proof.
  assert (H1 : List.length (repeat Byte.x00 4) = 4%nat) by reflexivity.
  assert (H2 : 0 <= 3 < 2 ^ 32) by lia.
  split; [exact H1|]. split; [exact H2|].
  exact (binary_cookies_truncated_page string_of_list_byte _ 3 H1 H2).
Defined.
